(** * primetask-api: task status machine, ownership scoping and account rules

    A shallow embedding of the decision logic of the Django REST backend
    (accounts and tasks applications) together with the properties that
    its specification states about it.

    Conventions of the embedding.
    - Python [str] values are [string]s of bytes; [lower], [strip] and
      [isalnum] act on the ASCII range.
    - A request body is a JSON object whose members are strings, integers,
      booleans or null: [gmap string Value].
    - The database is a record of tables (lists of rows, in store order);
      every view is a function from the database and the request to a
      response and the database afterwards.
    - Collaborators that live outside the repository (password policy,
      password hashing, e-mail and date parsing, JWT signature checks) are
      the fields of the record [External]; every property is proved for all
      of their behaviours.
    - The auto-managed time stamps [created_at] / [updated_at] are not part
      of the rows: no decision of the code reads them. *)

From Stdlib Require Import ZArith Ascii String List Permutation Lia.
From stdpp Require Import base decidable option list strings pretty gmap.

Local Open Scope string_scope.
Local Open Scope Z_scope.

Set Warnings "-clear-no-such-hyp".

(** ** Python string methods *)

Module Str.

Definition is_upper (c : ascii) : bool :=
  let n := N_of_ascii c in ((65 <=? n) && (n <=? 90))%N.

Definition is_lower (c : ascii) : bool :=
  let n := N_of_ascii c in ((97 <=? n) && (n <=? 122))%N.

Definition is_digit (c : ascii) : bool :=
  let n := N_of_ascii c in ((48 <=? n) && (n <=? 57))%N.

(** [str.isspace] on one ASCII character: TAB..CR, FS..US and the blank. *)
Definition is_space (c : ascii) : bool :=
  let n := N_of_ascii c in
  (((9 <=? n) && (n <=? 13)) || ((28 <=? n) && (n <=? 32)))%N.

Definition lower_ascii (c : ascii) : ascii :=
  if is_upper c then ascii_of_N (N_of_ascii c + 32) else c.

(** [s.lower()] *)
Fixpoint lower (s : string) : string :=
  match s with
  | EmptyString => EmptyString
  | String c s' => String (lower_ascii c) (lower s')
  end.

Fixpoint lstrip (s : string) : string :=
  match s with
  | EmptyString => EmptyString
  | String c s' => if is_space c then lstrip s' else s
  end.

Fixpoint rstrip (s : string) : string :=
  match s with
  | EmptyString => EmptyString
  | String c s' =>
      match rstrip s' with
      | EmptyString => if is_space c then EmptyString else String c EmptyString
      | r => String c r
      end
  end.

(** [s.strip()] *)
Definition strip (s : string) : string := rstrip (lstrip s).

Fixpoint all_alnum (s : string) : bool :=
  match s with
  | EmptyString => true
  | String c s' => (is_upper c || is_lower c || is_digit c) && all_alnum s'
  end.

(** [s.isalnum()]: false on the empty string. *)
Definition isalnum (s : string) : bool :=
  match s with
  | EmptyString => false
  | _ => all_alnum s
  end.

(** [len(s)] *)
Definition len (s : string) : Z := Z.of_nat (String.length s).

(** [needle in hay] *)
Fixpoint contains (needle hay : string) : bool :=
  String.prefix needle hay ||
  match hay with
  | EmptyString => false
  | String _ hay' => contains needle hay'
  end.

(** The ORM lookup [field__icontains=needle]. *)
Definition icontains (hay needle : string) : bool :=
  contains (lower needle) (lower hay).

Fixpoint parse_digits (s : string) (acc : Z) : option Z :=
  match s with
  | EmptyString => Some acc
  | String c s' =>
      if is_digit c
      then parse_digits s' (10 * acc + Z.of_N (N_of_ascii c - 48))
      else None
  end.

(** Reading a decimal primary key. *)
Definition parse_int (s : string) : option Z :=
  match s with
  | EmptyString => None
  | _ => parse_digits s 0
  end.

(** The one-character string holding a double quote. *)
Definition dquote : string := String (ascii_of_N 34) EmptyString.

(** Python truthiness of a string: [if s:] *)
Definition truthy (s : string) : bool :=
  match s with
  | EmptyString => false
  | _ => true
  end.

End Str.

(** ** Request values *)

Inductive Value :=
| Str (s : string)
| Num (n : Z)
| Bool (b : bool)
| Null.

#[global] Instance Value_eq_dec : EqDecision Value.
Proof. solve_decision. Defined.

Abbreviation Payload := (gmap string Value).

(** [str(v)] *)
Definition str_of_value (v : Value) : string :=
  match v with
  | Str s => s
  | Num n => pretty n
  | Bool true => "True"
  | Bool false => "False"
  | Null => "None"
  end.

(** Python truthiness of a request value, as in [if not refresh_token]. *)
Definition truthy (v : Value) : bool :=
  match v with
  | Str s => Str.truthy s
  | Num n => negb (n =? 0)
  | Bool b => b
  | Null => false
  end.

(** ** Collaborators outside the repository *)

Record External := {
  (** Django's [EmailValidator]. *)
  valid_email : string -> bool;
  (** Django's [UnicodeUsernameValidator] of [AbstractUser.username]. *)
  valid_username : string -> bool;
  (** [django.contrib.auth.password_validation.validate_password]: the
      messages of the violated rules, none when the password is accepted. *)
  password_errors : string -> list string;
  (** [make_password]: the stored hash. *)
  make_password : string -> string;
  (** The framework's boolean and date-time field parsers. *)
  parse_boolean : Value -> option bool;
  parse_datetime : string -> option string;
  (** Signature, type and expiry check of a refresh token by the JWT
      library: the token's [jti] claim when the token verifies. *)
  jwt_decode : string -> option string;
  (** [RefreshToken.for_user]: the serialised access and refresh tokens. *)
  jwt_for_user : Z -> string * string
}.

(** ** Data model ([accounts/models.py], [tasks/models.py]) *)

Module User.

Record t := mk {
  id : Z;
  email : string;
  username : string;
  password : string;
  first_name : string;
  last_name : string;
  role : string;
  is_active : bool
}.

Definition ROLE_CHOICES : list (string * string) :=
  [("user", "User"); ("admin", "Admin")].

(** The [is_admin] property. *)
Definition is_admin (u : t) : bool := bool_decide (role u = "admin").

(** The [is_regular_user] property. *)
Definition is_regular_user (u : t) : bool := bool_decide (role u = "user").

(** Equality of model instances ([Model.__eq__]): same primary key. *)
Definition eqb (u v : t) : bool := bool_decide (id u = id v).

End User.

Module Task.

Record t := mk {
  id : Z;
  title : string;
  description : option string;
  status : string;
  priority : string;
  due_date : option string;
  (** The foreign key [owner], stored as the owner's primary key. *)
  owner : Z
}.

Definition STATUS_CHOICES : list (string * string) :=
  [("pending", "Pending"); ("in_progress", "In Progress");
   ("completed", "Completed"); ("cancelled", "Cancelled")].

Definition PRIORITY_CHOICES : list (string * string) :=
  [("low", "Low"); ("medium", "Medium"); ("high", "High")].

(** Field defaults of the model. *)
Definition default_status : string := "pending".
Definition default_priority : string := "medium".

End Task.

(** The tables the views read and write.  [blacklist] holds the [jti] of
    every blacklisted refresh token; the two sequences are the last primary
    keys handed out. *)
Record DB := mkDB {
  users : list User.t;
  tasks : list Task.t;
  blacklist : list string;
  user_seq : Z;
  task_seq : Z
}.

Definition set_users (us : list User.t) (db : DB) : DB :=
  mkDB us (tasks db) (blacklist db) (user_seq db) (task_seq db).

Definition set_tasks (ts : list Task.t) (db : DB) : DB :=
  mkDB (users db) ts (blacklist db) (user_seq db) (task_seq db).

Definition set_blacklist (bl : list string) (db : DB) : DB :=
  mkDB (users db) (tasks db) bl (user_seq db) (task_seq db).

(** ** The serializer framework, as far as the repository relies on it *)

Module DRF.

(** [serializer.errors]: field name to messages, in field order. *)
Abbreviation Errors := (list (string * list string)).

(** [validated_data]: an ordered dictionary. *)
Abbreviation ValidatedData := (list (string * Value)).

(** The result of a [validate_<field>] method: the value it returns or
    the detail of the [ValidationError] it raises. *)
Inductive Validation (A : Type) :=
| Valid (a : A)
| Invalid (detail : list string).
Arguments Valid {A} a.
Arguments Invalid {A} detail.

Inductive FieldType :=
| CharField (max_length : option Z) (allow_blank : bool)
| ChoiceField (choices : list string)
| BooleanField
| DateTimeField
| IntegerField
| PrimaryKeyRelatedField (queryset : list Z).

Record Field := mkField {
  field_name : string;
  field_type : FieldType;
  required : bool;
  allow_null : bool;
  read_only : bool;
  (** Validators attached to the field besides its length limit (format
      and uniqueness validators): the messages of those that fail. *)
  validators : string -> list string
}.

(** [Meta.read_only_fields] marks the named fields read-only. *)
Definition with_read_only (read_only_fields : list string) (f : Field) : Field :=
  if bool_decide (field_name f ∈ read_only_fields)
  then mkField (field_name f) (field_type f) false (allow_null f) true (validators f)
  else f.

Definition no_validators : string -> list string := fun _ => [].

Inductive Outcome :=
| Skip
| Ok (v : Value)
| Fail (detail : list string).

Definition max_length_errors (max_length : option Z) (s : string) : list string :=
  match max_length with
  | Some n =>
      if Str.len s >? n
      then ["Ensure this field has no more than " +:+ pretty n +:+ " characters."]
      else []
  | None => []
  end.

(** [to_internal_value] followed by [run_validators] for a value that is
    present and not null. *)
Definition field_to_internal (ext : External) (f : Field) (v : Value) : Outcome :=
  match field_type f, v with
  | CharField max_length allow_blank, Str s =>
      if bool_decide (Str.strip s = "")
      then (if allow_blank then Ok (Str "") else Fail ["This field may not be blank."])
      else
        let value := Str.strip s in
        match (max_length_errors max_length value ++ validators f value)%list with
        | [] => Ok (Str value)
        | errors => Fail errors
        end
  | CharField max_length allow_blank, Num n =>
      let value := pretty n in
      match (max_length_errors max_length value ++ validators f value)%list with
      | [] => Ok (Str value)
      | errors => Fail errors
      end
  | CharField _ _, _ => Fail ["Not a valid string."]
  | ChoiceField choices, _ =>
      let s := str_of_value v in
      if bool_decide (s ∈ choices) then Ok (Str s)
      else Fail [Str.dquote +:+ s +:+ Str.dquote +:+ " is not a valid choice."]
  | BooleanField, _ =>
      match parse_boolean ext v with
      | Some b => Ok (Bool b)
      | None => Fail ["Must be a valid boolean."]
      end
  | DateTimeField, Str s =>
      match parse_datetime ext s with
      | Some d => Ok (Str d)
      | None => Fail ["Datetime has wrong format."]
      end
  | DateTimeField, _ => Fail ["Datetime has wrong format."]
  | IntegerField, Num n => Ok (Num n)
  | IntegerField, Str s =>
      match Str.parse_int s with
      | Some n => Ok (Num n)
      | None => Fail ["A valid integer is required."]
      end
  | IntegerField, _ => Fail ["A valid integer is required."]
  | PrimaryKeyRelatedField queryset, Num n =>
      if bool_decide (n ∈ queryset) then Ok (Num n)
      else Fail ["Invalid pk - object does not exist."]
  | PrimaryKeyRelatedField queryset, Str s =>
      match Str.parse_int s with
      | Some n =>
          if bool_decide (n ∈ queryset) then Ok (Num n)
          else Fail ["Invalid pk - object does not exist."]
      | None => Fail ["Incorrect type. Expected pk value."]
      end
  | PrimaryKeyRelatedField _, _ => Fail ["Incorrect type. Expected pk value."]
  end.

(** [Field.run_validation]: [data] is [None] when the member is absent
    from the request. *)
Definition run_validation (ext : External) (partial : bool) (f : Field)
    (data : option Value) : Outcome :=
  match data with
  | None =>
      if partial then Skip
      else if required f then Fail ["This field is required."]
      else Skip
  | Some Null =>
      if allow_null f then Ok Null else Fail ["This field may not be null."]
  | Some v => field_to_internal ext f v
  end.

(** A serializer class: its fields and its [validate_<field>] methods.
    The methods of this repository are written for [str] values and are
    attached to fields that are never null. *)
Record Serializer := mkSerializer {
  fields : list Field;
  validate_method : string -> option (string -> Validation string)
}.

Definition apply_validate_method (m : option (string -> Validation string))
    (v : Value) : Outcome :=
  match m, v with
  | Some validate, Str s =>
      match validate s with
      | Valid s' => Ok (Str s')
      | Invalid detail => Fail detail
      end
  | _, _ => Ok v
  end.

Definition _writable_fields (s : Serializer) : list Field :=
  filter (fun f => read_only f = false) (fields s).

(** What the loop of [Serializer.to_internal_value] obtains for one
    field: [run_validation], then the [validate_<field>] method. *)
Definition field_outcome (ext : External) (partial : bool) (s : Serializer)
    (data : Payload) (f : Field) : Outcome :=
  match run_validation ext partial f (data !! field_name f) with
  | Ok v => apply_validate_method (validate_method s (field_name f)) v
  | o => o
  end.

(** One turn of that loop. *)
Definition validate_one (ext : External) (partial : bool) (s : Serializer)
    (data : Payload) (acc : Errors * ValidatedData) (f : Field)
    : Errors * ValidatedData :=
  match field_outcome ext partial s data f with
  | Skip => acc
  | Fail detail => ((acc.1 ++ [(field_name f, detail)])%list, acc.2)
  | Ok v => (acc.1, (acc.2 ++ [(field_name f, v)])%list)
  end.

(** [Serializer.to_internal_value]: the errors of all fields are
    collected; validated data is produced only when there is none. *)
Definition to_internal_value (ext : External) (partial : bool) (s : Serializer)
    (data : Payload) : Errors + ValidatedData :=
  match foldl (validate_one ext partial s data) ([], []) (_writable_fields s) with
  | ([], ret) => inr ret
  | (errors, _) => inl errors
  end.

(** [validated_data.get(name)] *)
Fixpoint get (name : string) (d : ValidatedData) : option Value :=
  match d with
  | [] => None
  | (k, v) :: d' => if bool_decide (k = name) then Some v else get name d'
  end.

(** [validated_data.pop(name)] *)
Definition pop (name : string) (d : ValidatedData) : ValidatedData :=
  filter (fun kv => kv.1 ≠ name) d.

End DRF.

(** ** Requests, responses and the exception handler ([config/exceptions.py]) *)

Record Request := mkRequest {
  (** [request.user]: [None] stands for the anonymous user. *)
  user : option User.t;
  (** [request.data] *)
  data : Payload;
  (** [request.query_params] *)
  query_params : gmap string string
}.

(** Exceptions that leave a view.  The first four are the framework's API
    exceptions; [Unhandled] is any other Python exception, which the
    exception handler does not turn into a response. *)
Inductive APIException :=
| NotAuthenticated
| PermissionDenied (detail : string)
| Http404
| ValidationError (errors : DRF.Errors)
| Unhandled.

Definition exception_status (exc : APIException) : Z :=
  match exc with
  | NotAuthenticated => 401
  | PermissionDenied _ => 403
  | Http404 => 404
  | ValidationError _ => 400
  | Unhandled => 500
  end.

Record Stats := mkStats {
  total : Z;
  pending : Z;
  in_progress : Z;
  completed : Z;
  cancelled : Z
}.

Inductive Data :=
| NoData
| TaskData (t : Task.t)
| TaskListData (ts : list Task.t)
| StatsData (s : Stats)
| UserData (u : User.t)
| RegistrationData (u : User.t) (access refresh : string).

Inductive Body :=
(** [{'success': ..., 'message': ..., 'data': ..., 'errors': ...}] as the
    views of the repository build it. *)
| Envelope (success : bool) (message : option string) (payload : Data)
    (errors : DRF.Errors)
(** The serializer data returned by a generic view. *)
| Plain (payload : Data)
(** [{'success': False, 'error': {'code': ..., 'details': ...}}] as the
    exception handler builds it; the details are those of the exception.
    The [message] slot, a text extracted from these details, is left out. *)
| ErrorBody (code : string) (exc : APIException)
(** The server error page for an exception nobody handled. *)
| ServerError.

Record Response := mkResponse {
  status_code : Z;
  body : Body
}.

Definition HTTP_200_OK : Z := 200.
Definition HTTP_201_CREATED : Z := 201.
Definition HTTP_204_NO_CONTENT : Z := 204.
Definition HTTP_400_BAD_REQUEST : Z := 400.

Module exceptions.

(** [error_codes.get(status_code, 'UNKNOWN_ERROR')] *)
Definition get_error_code (status_code : Z) : string :=
  let error_codes : list (Z * string) :=
    [(400, "BAD_REQUEST"); (401, "UNAUTHORIZED"); (403, "FORBIDDEN");
     (404, "NOT_FOUND"); (405, "METHOD_NOT_ALLOWED"); (409, "CONFLICT");
     (422, "UNPROCESSABLE_ENTITY"); (429, "TOO_MANY_REQUESTS");
     (500, "INTERNAL_SERVER_ERROR")] in
  match list_find (fun kv => kv.1 = status_code) error_codes with
  | Some (_, kv) => kv.2
  | None => "UNKNOWN_ERROR"
  end.

(** [custom_exception_handler]: the framework's handler answers the API
    exceptions ([response is not None]) and the body is rewritten into
    the error envelope; for any other exception it returns [None] and the
    server error page is sent. *)
Definition custom_exception_handler (exc : APIException) : Response :=
  match exc with
  | Unhandled => mkResponse 500 ServerError
  | _ =>
      mkResponse (exception_status exc)
        (ErrorBody (get_error_code (exception_status exc)) exc)
  end.

End exceptions.

(** ** Permission classes ([accounts/permissions.py]) *)

Module permissions.

(** The objects that reach [has_object_permission]: a row with an
    [owner] attribute (a task), a row with a [user] attribute, or
    anything else, which is compared with the caller itself. *)
Inductive Obj :=
| WithOwner (t : Task.t)
| WithUser (user_pk : Z)
| Other (u : User.t).

Inductive Permission :=
| AllowAny
| IsAuthenticated
| IsAdminUser
| IsOwnerOrAdmin
| IsOwner.

Definition message (p : Permission) : string :=
  match p with
  | IsAdminUser => "You must be an admin to perform this action."
  | IsOwnerOrAdmin => "You do not have permission to access this resource."
  | IsOwner => "You can only access your own resources."
  | _ => "You do not have permission to perform this action."
  end.

(** [has_permission(request, view)]; the classes that do not define it
    inherit the base class, which allows. *)
Definition has_permission (p : Permission) (request_user : option User.t) : bool :=
  match p with
  | IsAuthenticated => bool_decide (is_Some request_user)
  | IsAdminUser =>
      match request_user with
      | Some u => bool_decide (User.role u = "admin")
      | None => false
      end
  | _ => true
  end.

Definition owner_check (request_user : User.t) (obj : Obj) : bool :=
  match obj with
  | WithOwner t => bool_decide (Task.owner t = User.id request_user)
  | WithUser user_pk => bool_decide (user_pk = User.id request_user)
  | Other u => User.eqb u request_user
  end.

(** [has_object_permission(request, view, obj)] *)
Definition has_object_permission (p : Permission) (request_user : User.t)
    (obj : Obj) : bool :=
  match p with
  | IsOwnerOrAdmin =>
      if bool_decide (User.role request_user = "admin") then true
      else owner_check request_user obj
  | IsOwner => owner_check request_user obj
  | _ => true
  end.

(** [APIView.permission_denied]: a request without credentials is
    answered 401, an authenticated one 403 with the class's message. *)
Definition permission_denied (request_user : option User.t) (p : Permission)
    : APIException :=
  match request_user with
  | None => NotAuthenticated
  | Some _ => PermissionDenied (message p)
  end.

(** [APIView.check_permissions]: the first class that refuses raises. *)
Fixpoint check_permissions (permission_classes : list Permission)
    (request_user : option User.t) : option APIException :=
  match permission_classes with
  | [] => None
  | p :: ps =>
      if has_permission p request_user then check_permissions ps request_user
      else Some (permission_denied request_user p)
  end.

(** [APIView.check_object_permissions] *)
Fixpoint check_object_permissions (permission_classes : list Permission)
    (request_user : User.t) (obj : Obj) : option APIException :=
  match permission_classes with
  | [] => None
  | p :: ps =>
      if has_object_permission p request_user obj
      then check_object_permissions ps request_user obj
      else Some (PermissionDenied (message p))
  end.

End permissions.

(** ** Task serializers ([tasks/serializers.py]) *)

Module tasks_serializers.

(** The serializer field that [ModelSerializer] builds for a column of
    [tasks.models.Task]; [owner] is a relation to the users table. *)
Definition model_field (db : DB) (name : string) : DRF.Field :=
  if bool_decide (name = "title") then
    DRF.mkField name (DRF.CharField (Some 200) false) true false false DRF.no_validators
  else if bool_decide (name = "description") then
    DRF.mkField name (DRF.CharField None true) false true false DRF.no_validators
  else if bool_decide (name = "status") then
    DRF.mkField name (DRF.ChoiceField (Task.STATUS_CHOICES.*1)) false false false
      DRF.no_validators
  else if bool_decide (name = "priority") then
    DRF.mkField name (DRF.ChoiceField (Task.PRIORITY_CHOICES.*1)) false false false
      DRF.no_validators
  else if bool_decide (name = "due_date") then
    DRF.mkField name DRF.DateTimeField false true false DRF.no_validators
  else if bool_decide (name = "owner") then
    DRF.mkField name (DRF.PrimaryKeyRelatedField (User.id <$> users db)) true false false
      DRF.no_validators
  else if bool_decide (name = "id") then
    DRF.mkField name DRF.IntegerField false false true DRF.no_validators
  else if bool_decide (name = "created_at") || bool_decide (name = "updated_at") then
    DRF.mkField name DRF.DateTimeField false false true DRF.no_validators
  else
    (* the fields declared on the serializer with [read_only=True] *)
    DRF.mkField name (DRF.CharField None false) false false true DRF.no_validators.

(** [setattr(instance, attr, value)] on a task row. *)
Definition setattr (t : Task.t) (attr : string) (value : Value) : Task.t :=
  let '(Task.mk id title description status priority due_date owner) := t in
  if bool_decide (attr = "title") then
    match value with
    | Str s => Task.mk id s description status priority due_date owner
    | _ => t
    end
  else if bool_decide (attr = "description") then
    match value with
    | Str s => Task.mk id title (Some s) status priority due_date owner
    | Null => Task.mk id title None status priority due_date owner
    | _ => t
    end
  else if bool_decide (attr = "status") then
    match value with
    | Str s => Task.mk id title description s priority due_date owner
    | _ => t
    end
  else if bool_decide (attr = "priority") then
    match value with
    | Str s => Task.mk id title description status s due_date owner
    | _ => t
    end
  else if bool_decide (attr = "due_date") then
    match value with
    | Str s => Task.mk id title description status priority (Some s) owner
    | Null => Task.mk id title description status priority None owner
    | _ => t
    end
  else if bool_decide (attr = "owner") then
    match value with
    | Num pk => Task.mk id title description status priority due_date pk
    | _ => t
    end
  else if bool_decide (attr = "id") then
    match value with
    | Num pk => Task.mk pk title description status priority due_date owner
    | _ => t
    end
  else t.

(** [instance.save()] of an existing row. *)
Definition save (instance : Task.t) (db : DB) : DB :=
  set_tasks
    ((fun t => if bool_decide (Task.id t = Task.id instance) then instance else t)
       <$> tasks db) db.

(** [ModelSerializer.update]: every validated item is assigned to the
    instance, which is then saved. *)
Definition update (instance : Task.t) (validated_data : DRF.ValidatedData)
    (db : DB) : Task.t * DB :=
  let instance' := foldl (fun t kv => setattr t kv.1 kv.2) instance validated_data in
  (instance', save instance' db).

(** [ModelSerializer.create], that is [Task.objects.create] with the
    validated items as keyword arguments: a row with the model defaults,
    the validated items and the next primary key.  A row without owner violates the NOT NULL constraint. *)
Definition model_create (validated_data : DRF.ValidatedData) (db : DB)
    : option (Task.t * DB) :=
  match DRF.get "owner" validated_data with
  | Some (Num owner) =>
      let pk := task_seq db + 1 in
      let blank :=
        Task.mk pk "" None Task.default_status Task.default_priority None owner in
      let task := foldl (fun t kv => setattr t kv.1 kv.2) blank validated_data in
      Some (task, mkDB (users db) (tasks db ++ [task]) (blacklist db) (user_seq db) pk)
  | _ => None
  end.

(** [validate_title], shared by both serializers. *)
Definition validate_title (value : string) : DRF.Validation string :=
  if Str.len (Str.strip value) <? 3
  then DRF.Invalid ["Title must be at least 3 characters long."]
  else DRF.Valid (Str.strip value).

Module TaskSerializer.

Definition Meta_fields : list string :=
  ["id"; "title"; "description"; "status"; "status_display"; "priority";
   "priority_display"; "due_date"; "owner"; "owner_email"; "owner_username";
   "created_at"; "updated_at"].

Definition Meta_read_only_fields : list string :=
  ["id"; "owner"; "created_at"; "updated_at"].

Definition allowed_transitions : gmap string (list string) :=
  list_to_map
    [("pending", ["in_progress"; "cancelled"]);
     ("in_progress", ["completed"; "pending"; "cancelled"]);
     ("completed", ["pending"]);
     ("cancelled", ["pending"])].

(** [validate_status]; [instance] is [None] when the serializer is
    used to create. *)
Definition validate_status (instance : option Task.t) (value : string)
    : DRF.Validation string :=
  match instance with
  | Some inst =>
      let current_status := Task.status inst in
      if bool_decide (value ≠ current_status)
         && bool_decide (value ∉ default [] (allowed_transitions !! current_status))
      then DRF.Invalid
             ["Cannot transition from '" +:+ current_status +:+ "' to '"
              +:+ value +:+ "'."]
      else DRF.Valid value
  | None => DRF.Valid value
  end.

Definition serializer (db : DB) (instance : option Task.t) : DRF.Serializer :=
  DRF.mkSerializer
    (DRF.with_read_only Meta_read_only_fields <$> (model_field db <$> Meta_fields))
    (fun name =>
       if bool_decide (name = "title") then Some validate_title
       else if bool_decide (name = "status") then Some (validate_status instance)
       else None).

End TaskSerializer.

Module TaskCreateSerializer.

Definition Meta_fields : list string :=
  ["title"; "description"; "priority"; "due_date"].

Definition serializer (db : DB) : DRF.Serializer :=
  DRF.mkSerializer
    (model_field db <$> Meta_fields)
    (fun name => if bool_decide (name = "title") then Some validate_title else None).

(** [validated_data['owner'] = ...] *)
Definition set_item (name : string) (v : Value) (d : DRF.ValidatedData)
    : DRF.ValidatedData :=
  if bool_decide (name ∈ d.*1)
  then (fun kv => if bool_decide (kv.1 = name) then (name, v) else kv) <$> d
  else (d ++ [(name, v)])%list.

(** [create]: the caller becomes the owner. *)
Definition create (request_user : User.t) (validated_data : DRF.ValidatedData)
    (db : DB) : option (Task.t * DB) :=
  let validated_data := set_item "owner" (Num (User.id request_user)) validated_data in
  model_create validated_data db.

End TaskCreateSerializer.

End tasks_serializers.

(** ** The view layer shared by both applications *)

Module generics.

(** [APIView.dispatch] for a view that requires an authenticated caller:
    the permission classes are checked before the handler runs, and an
    exception raised on the way is answered by the exception handler,
    leaving the database as it was. *)
Definition dispatch (permission_classes : list permissions.Permission)
    (request : Request) (db : DB)
    (handler : User.t -> APIException + Response * DB) : Response * DB :=
  match permissions.check_permissions permission_classes (user request) with
  | Some exc => (exceptions.custom_exception_handler exc, db)
  | None =>
      match user request with
      | Some request_user =>
          match handler request_user with
          | inl exc => (exceptions.custom_exception_handler exc, db)
          | inr result => result
          end
      | None => (exceptions.custom_exception_handler Unhandled, db)
      end
  end.

(** [get_object_or_404(queryset, pk=pk)] *)
Definition get_object_or_404 {A} (pk_of : A -> Z) (queryset : list A) (pk : Z)
    : APIException + A :=
  match list_find (fun row => pk_of row = pk) queryset with
  | Some (_, row) => inr row
  | None => inl Http404
  end.

End generics.

(** ** Task views ([tasks/views.py]) *)

Module tasks_views.

Import permissions tasks_serializers.

(** The role-scoped base set that the three task views start from: all
    tasks for an admin, the caller's own otherwise.  The caller has passed
    [IsAuthenticated] and the user model has a [role], so the test
    [user.is_authenticated and hasattr(user, 'role') and user.role == 'admin']
    is the test on the role.  (The branch for schema generation,
    [swagger_fake_view], serves no request.) *)
Definition base_queryset (db : DB) (request_user : User.t) : list Task.t :=
  if bool_decide (User.role request_user = "admin")
  then tasks db
  else filter (fun t => Task.owner t = User.id request_user) (tasks db).

Module TaskListCreateView.

Definition permission_classes : list Permission := [IsAuthenticated].

(** The search condition
    [Q(title__icontains=search) | Q(description__icontains=search)];
    a null description matches nothing. *)
Definition search_matches (search : string) (t : Task.t) : bool :=
  Str.icontains (Task.title t) search
  || match Task.description t with
     | Some d => Str.icontains d search
     | None => false
     end.

Definition get_queryset (db : DB) (request_user : User.t)
    (query_params : gmap string string) : list Task.t :=
  let queryset := base_queryset db request_user in
  let status_filter := query_params !! "status" in
  let priority_filter := query_params !! "priority" in
  let search := query_params !! "search" in
  let queryset :=
    match status_filter with
    | Some s =>
        if Str.truthy s then filter (fun t => Task.status t = s) queryset
        else queryset
    | None => queryset
    end in
  let queryset :=
    match priority_filter with
    | Some p =>
        if Str.truthy p then filter (fun t => Task.priority t = p) queryset
        else queryset
    | None => queryset
    end in
  let queryset :=
    match search with
    | Some s =>
        if Str.truthy s then filter (fun t => search_matches s t = true) queryset
        else queryset
    | None => queryset
    end in
  queryset.

(** [get]: the list action of the generic view. *)
Definition get (db : DB) (request : Request) : Response * DB :=
  generics.dispatch permission_classes request db (fun request_user =>
    inr (mkResponse HTTP_200_OK
           (Plain (TaskListData (get_queryset db request_user (query_params request)))),
         db)).

Definition post (ext : External) (db : DB) (request : Request) : Response * DB :=
  generics.dispatch permission_classes request db (fun request_user =>
    match DRF.to_internal_value ext false (TaskCreateSerializer.serializer db)
            (data request) with
    | inr validated_data =>
        match TaskCreateSerializer.create request_user validated_data db with
        | Some (task, db') =>
            inr (mkResponse HTTP_201_CREATED
                   (Envelope true (Some "Task created successfully") (TaskData task) []),
                 db')
        | None => inl Unhandled
        end
    | inl errors =>
        inr (mkResponse HTTP_400_BAD_REQUEST
               (Envelope false (Some "Task creation failed") NoData errors),
             db)
    end).

End TaskListCreateView.

Module TaskDetailView.

Definition permission_classes : list Permission := [IsAuthenticated; IsOwnerOrAdmin].

Definition get_queryset (db : DB) (request_user : User.t) : list Task.t :=
  base_queryset db request_user.

(** [GenericAPIView.get_object]: the row is looked up in the view's
    queryset, then the object permissions are checked. *)
Definition get_object (db : DB) (request_user : User.t) (pk : Z)
    : APIException + Task.t :=
  match generics.get_object_or_404 Task.id (get_queryset db request_user) pk with
  | inl exc => inl exc
  | inr obj =>
      match check_object_permissions permission_classes request_user (WithOwner obj) with
      | Some exc => inl exc
      | None => inr obj
      end
  end.

(** [get]: the retrieve action. *)
Definition get (db : DB) (request : Request) (pk : Z) : Response * DB :=
  generics.dispatch permission_classes request db (fun request_user =>
    match get_object db request_user pk with
    | inl exc => inl exc
    | inr instance => inr (mkResponse HTTP_200_OK (Plain (TaskData instance)), db)
    end).

(** [UpdateModelMixin.update] *)
Definition update (partial : bool) (ext : External) (db : DB) (request : Request)
    (pk : Z) : Response * DB :=
  generics.dispatch permission_classes request db (fun request_user =>
    match get_object db request_user pk with
    | inl exc => inl exc
    | inr instance =>
        match DRF.to_internal_value ext partial
                (TaskSerializer.serializer db (Some instance)) (data request) with
        | inl errors => inl (ValidationError errors)
        | inr validated_data =>
            let '(instance', db') := tasks_serializers.update instance validated_data db in
            inr (mkResponse HTTP_200_OK (Plain (TaskData instance')), db')
        end
    end).

Definition put := update false.
Definition patch := update true.

(** [delete]: the destroy action. *)
Definition delete (db : DB) (request : Request) (pk : Z) : Response * DB :=
  generics.dispatch permission_classes request db (fun request_user =>
    match get_object db request_user pk with
    | inl exc => inl exc
    | inr instance =>
        inr (mkResponse HTTP_204_NO_CONTENT (Plain NoData),
             set_tasks (filter (fun t => Task.id t ≠ Task.id instance) (tasks db)) db)
    end).

End TaskDetailView.

Module TaskStatsView.

Definition permission_classes : list Permission := [IsAuthenticated].

(** [queryset.count()] *)
Definition count (queryset : list Task.t) : Z := Z.of_nat (length queryset).

Definition get (db : DB) (request : Request) : Response * DB :=
  generics.dispatch permission_classes request db (fun request_user =>
    let queryset := base_queryset db request_user in
    let stats :=
      {| total := count queryset;
         pending := count (filter (fun t => Task.status t = "pending") queryset);
         in_progress := count (filter (fun t => Task.status t = "in_progress") queryset);
         completed := count (filter (fun t => Task.status t = "completed") queryset);
         cancelled := count (filter (fun t => Task.status t = "cancelled") queryset) |} in
    inr (mkResponse HTTP_200_OK (Envelope true None (StatsData stats) []), db)).

End TaskStatsView.

End tasks_views.

(** ** Account serializers ([accounts/serializers.py]) *)

Module accounts_serializers.

(** [User.objects.filter(email=value).exists()]: an exact match. *)
Definition email_exists (db : DB) (value : string) : bool :=
  bool_decide (Exists (fun u => User.email u = value) (users db)).

(** [User.objects.filter(username=value).exists()]: an exact match. *)
Definition username_exists (db : DB) (value : string) : bool :=
  bool_decide (Exists (fun u => User.username u = value) (users db)).

(** The uniqueness validator that [ModelSerializer] attaches to a unique
    column: an exact match against the other rows ([instance] is the row
    being updated, if any). *)
Definition unique_errors (column : User.t -> string) (message : string)
    (db : DB) (instance : option User.t) (value : string) : list string :=
  let others :=
    match instance with
    | Some inst => filter (fun u => User.id u ≠ User.id inst) (users db)
    | None => users db
    end in
  if bool_decide (Exists (fun u => column u = value) others) then [message] else [].

(** The serializer field that [ModelSerializer] builds for a column of
    the user model. *)
Definition model_field (ext : External) (db : DB) (instance : option User.t)
    (name : string) : DRF.Field :=
  if bool_decide (name = "email") then
    DRF.mkField name (DRF.CharField (Some 254) false) true false false
      (fun value =>
         (if valid_email ext value then [] else ["Enter a valid email address."])
         ++ unique_errors User.email "User with this email already exists."
              db instance value)%list
  else if bool_decide (name = "username") then
    DRF.mkField name (DRF.CharField (Some 150) false) true false false
      (fun value =>
         (if valid_username ext value then [] else ["Enter a valid username."])
         ++ unique_errors User.username "A user with that username already exists."
              db instance value)%list
  else if bool_decide (name = "first_name") || bool_decide (name = "last_name") then
    DRF.mkField name (DRF.CharField (Some 150) true) false false false DRF.no_validators
  else if bool_decide (name = "role") then
    DRF.mkField name (DRF.ChoiceField (User.ROLE_CHOICES.*1)) false false false
      DRF.no_validators
  else if bool_decide (name = "is_active") then
    DRF.mkField name DRF.BooleanField false false false DRF.no_validators
  else if bool_decide (name = "id") then
    DRF.mkField name DRF.IntegerField false false true DRF.no_validators
  else
    (* [created_at], [updated_at]: not editable *)
    DRF.mkField name DRF.DateTimeField false false true DRF.no_validators.

(** [setattr(instance, attr, value)] on a user row. *)
Definition setattr (u : User.t) (attr : string) (value : Value) : User.t :=
  let '(User.mk id email username password first_name last_name role is_active) := u in
  if bool_decide (attr = "email") then
    match value with
    | Str s => User.mk id s username password first_name last_name role is_active
    | _ => u
    end
  else if bool_decide (attr = "username") then
    match value with
    | Str s => User.mk id email s password first_name last_name role is_active
    | _ => u
    end
  else if bool_decide (attr = "first_name") then
    match value with
    | Str s => User.mk id email username password s last_name role is_active
    | _ => u
    end
  else if bool_decide (attr = "last_name") then
    match value with
    | Str s => User.mk id email username password first_name s role is_active
    | _ => u
    end
  else if bool_decide (attr = "role") then
    match value with
    | Str s => User.mk id email username password first_name last_name s is_active
    | _ => u
    end
  else if bool_decide (attr = "is_active") then
    match value with
    | Bool b => User.mk id email username password first_name last_name role b
    | _ => u
    end
  else if bool_decide (attr = "id") then
    match value with
    | Num pk => User.mk pk email username password first_name last_name role is_active
    | _ => u
    end
  else u.

(** [instance.save()] of an existing row. *)
Definition save (instance : User.t) (db : DB) : DB :=
  set_users
    ((fun u => if bool_decide (User.id u = User.id instance) then instance else u)
       <$> users db) db.

(** [ModelSerializer.update] *)
Definition update (instance : User.t) (validated_data : DRF.ValidatedData)
    (db : DB) : User.t * DB :=
  let instance' := foldl (fun u kv => setattr u kv.1 kv.2) instance validated_data in
  (instance', save instance' db).

(** [User.objects.create_user]: the password is hashed and the row gets
    the next primary key.  On the lower-case values that registration
    passes, the manager's own normalisation of the e-mail domain is the
    identity. *)
Definition create_user (ext : External) (email username password first_name
    last_name role : string) (db : DB) : User.t * DB :=
  let pk := user_seq db + 1 in
  let user :=
    User.mk pk email username (make_password ext password) first_name last_name
      role true in
  (user, mkDB (users db ++ [user]) (tasks db) (blacklist db) pk (task_seq db)).

(** [validated_data[name]] and [validated_data.get(name, default)] for the
    string items of registration. *)
Definition get_str (name : string) (default : string) (d : DRF.ValidatedData)
    : string :=
  match DRF.get name d with
  | Some (Str s) => s
  | _ => default
  end.

Module UserRegistrationSerializer.

Definition Meta_fields : list string :=
  ["id"; "email"; "username"; "password"; "password_confirm"; "first_name";
   "last_name"].

(** The two declared fields: [CharField(write_only=True, required=True)]. *)
Definition declared_field (name : string) : DRF.Field :=
  DRF.mkField name (DRF.CharField None false) true false false DRF.no_validators.

Definition build_field (ext : External) (db : DB) (name : string) : DRF.Field :=
  if bool_decide (name = "password") || bool_decide (name = "password_confirm")
  then declared_field name
  else model_field ext db None name.

Definition validate_email (db : DB) (value : string) : DRF.Validation string :=
  if email_exists db (Str.lower value)
  then DRF.Invalid ["A user with this email already exists."]
  else DRF.Valid (Str.lower value).

Definition validate_username (db : DB) (value : string) : DRF.Validation string :=
  if username_exists db (Str.lower value)
  then DRF.Invalid ["A user with this username already exists."]
  else if negb (Str.isalnum value)
  then DRF.Invalid ["Username must be alphanumeric."]
  else if Str.len value <? 3
  then DRF.Invalid ["Username must be at least 3 characters long."]
  else DRF.Valid (Str.lower value).

Definition validate_password (ext : External) (value : string)
    : DRF.Validation string :=
  match password_errors ext value with
  | [] => DRF.Valid value
  | messages => DRF.Invalid messages
  end.

(** [validate]: the object-level check. *)
Definition validate (attrs : DRF.ValidatedData) : DRF.Errors + DRF.ValidatedData :=
  if bool_decide (DRF.get "password" attrs ≠ DRF.get "password_confirm" attrs)
  then inl [("password_confirm", ["Passwords do not match."])]
  else inr attrs.

Definition serializer (ext : External) (db : DB) : DRF.Serializer :=
  DRF.mkSerializer
    (build_field ext db <$> Meta_fields)
    (fun name =>
       if bool_decide (name = "email") then Some (validate_email db)
       else if bool_decide (name = "username") then Some (validate_username db)
       else if bool_decide (name = "password") then Some (validate_password ext)
       else None).

(** [serializer.is_valid()]: field validation, then [validate]. *)
Definition run_validation (ext : External) (db : DB) (data : Payload)
    : DRF.Errors + DRF.ValidatedData :=
  match DRF.to_internal_value ext false (serializer ext db) data with
  | inl errors => inl errors
  | inr attrs => validate attrs
  end.

Definition create (ext : External) (validated_data : DRF.ValidatedData) (db : DB)
    : User.t * DB :=
  let validated_data := DRF.pop "password_confirm" validated_data in
  create_user ext
    (get_str "email" "" validated_data)
    (get_str "username" "" validated_data)
    (get_str "password" "" validated_data)
    (get_str "first_name" "" validated_data)
    (get_str "last_name" "" validated_data)
    "user"
    db.

End UserRegistrationSerializer.

Module UserProfileSerializer.

Definition Meta_fields : list string :=
  ["id"; "email"; "username"; "first_name"; "last_name"; "role"; "created_at";
   "updated_at"].

Definition Meta_read_only_fields : list string :=
  ["id"; "email"; "role"; "created_at"; "updated_at"].

Definition serializer (ext : External) (db : DB) (instance : User.t)
    : DRF.Serializer :=
  DRF.mkSerializer
    (DRF.with_read_only Meta_read_only_fields
       <$> (model_field ext db (Some instance) <$> Meta_fields))
    (fun _ => None).

End UserProfileSerializer.

Module AdminUserUpdateSerializer.

Definition Meta_fields : list string :=
  ["id"; "email"; "username"; "first_name"; "last_name"; "role"; "is_active"].

Definition Meta_read_only_fields : list string := ["id"; "email"; "username"].

Definition serializer (ext : External) (db : DB) (instance : User.t)
    : DRF.Serializer :=
  DRF.mkSerializer
    (DRF.with_read_only Meta_read_only_fields
       <$> (model_field ext db (Some instance) <$> Meta_fields))
    (fun _ => None).

End AdminUserUpdateSerializer.

End accounts_serializers.

(** ** Account views ([accounts/views.py]) *)

Module accounts_views.

Import permissions accounts_serializers.

Module UserRegistrationView.

Definition permission_classes : list Permission := [AllowAny].

Definition post (ext : External) (db : DB) (request : Request) : Response * DB :=
  match UserRegistrationSerializer.run_validation ext db (data request) with
  | inr validated_data =>
      let '(user, db') := UserRegistrationSerializer.create ext validated_data db in
      let '(access, refresh) := jwt_for_user ext (User.id user) in
      (mkResponse HTTP_201_CREATED
         (Envelope true (Some "User registered successfully")
            (RegistrationData user access refresh) []),
       db')
  | inl errors =>
      (mkResponse HTTP_400_BAD_REQUEST
         (Envelope false (Some "Registration failed") NoData errors),
       db)
  end.

End UserRegistrationView.

Module LogoutView.

Definition permission_classes : list Permission := [IsAuthenticated].

(** [RefreshToken(refresh_token)] of the JWT library: the token is
    verified and looked up in the blacklist; [None] stands for the
    exception raised when either check fails. *)
Definition RefreshToken (ext : External) (db : DB) (refresh_token : Value)
    : option string :=
  match refresh_token with
  | Str raw =>
      match jwt_decode ext raw with
      | Some jti => if bool_decide (jti ∈ blacklist db) then None else Some jti
      | None => None
      end
  | _ => None
  end.

(** [token.blacklist()]: get-or-create of the blacklist entry. *)
Definition token_blacklist (jti : string) (db : DB) : DB :=
  if bool_decide (jti ∈ blacklist db) then db
  else set_blacklist (blacklist db ++ [jti]) db.

Definition post (ext : External) (db : DB) (request : Request) : Response * DB :=
  generics.dispatch permission_classes request db (fun _ =>
    match data request !! "refresh" with
    | Some refresh_token =>
        if negb (truthy refresh_token) then
          inr (mkResponse HTTP_400_BAD_REQUEST
                 (Envelope false (Some "Refresh token is required") NoData []), db)
        else
          match RefreshToken ext db refresh_token with
          | Some token =>
              inr (mkResponse HTTP_200_OK
                     (Envelope true (Some "Successfully logged out") NoData []),
                   token_blacklist token db)
          | None =>
              (* [except Exception] *)
              inr (mkResponse HTTP_400_BAD_REQUEST
                     (Envelope false (Some "Invalid token") NoData []), db)
          end
    | None =>
        inr (mkResponse HTTP_400_BAD_REQUEST
               (Envelope false (Some "Refresh token is required") NoData []), db)
    end).

End LogoutView.

Module UserProfileView.

Definition permission_classes : list Permission := [IsAuthenticated].

(** [get_object] returns [request.user]. *)
Definition update (partial : bool) (ext : External) (db : DB) (request : Request)
    : Response * DB :=
  generics.dispatch permission_classes request db (fun request_user =>
    match DRF.to_internal_value ext partial
            (UserProfileSerializer.serializer ext db request_user) (data request) with
    | inl errors => inl (ValidationError errors)
    | inr validated_data =>
        let '(instance', db') :=
          accounts_serializers.update request_user validated_data db in
        inr (mkResponse HTTP_200_OK (Plain (UserData instance')), db')
    end).

Definition put := update false.
Definition patch := update true.

End UserProfileView.

Module AdminUserDetailView.

Definition permission_classes : list Permission := [IsAuthenticated; IsAdminUser].

(** [queryset = User.objects.all()] *)
Definition get_object (db : DB) (request_user : User.t) (pk : Z)
    : APIException + User.t :=
  match generics.get_object_or_404 User.id (users db) pk with
  | inl exc => inl exc
  | inr obj =>
      match check_object_permissions permission_classes request_user (Other obj) with
      | Some exc => inl exc
      | None => inr obj
      end
  end.

Definition get (db : DB) (request : Request) (pk : Z) : Response * DB :=
  generics.dispatch permission_classes request db (fun request_user =>
    match get_object db request_user pk with
    | inl exc => inl exc
    | inr instance => inr (mkResponse HTTP_200_OK (Plain (UserData instance)), db)
    end).

(** [UpdateModelMixin.update] with [AdminUserUpdateSerializer]. *)
Definition update (partial : bool) (ext : External) (db : DB) (request : Request)
    (pk : Z) : Response * DB :=
  generics.dispatch permission_classes request db (fun request_user =>
    match get_object db request_user pk with
    | inl exc => inl exc
    | inr instance =>
        match DRF.to_internal_value ext partial
                (AdminUserUpdateSerializer.serializer ext db instance)
                (data request) with
        | inl errors => inl (ValidationError errors)
        | inr validated_data =>
            let '(instance', db') :=
              accounts_serializers.update instance validated_data db in
            inr (mkResponse HTTP_200_OK (Plain (UserData instance')), db')
        end
    end).

Definition put := update false.
Definition patch := update true.

(** [instance.delete()]: the user row goes, and with it the tasks it
    owns ([on_delete=models.CASCADE] on [Task.owner]). *)
Definition perform_destroy (instance : User.t) (db : DB) : DB :=
  mkDB (filter (fun u => User.id u ≠ User.id instance) (users db))
       (filter (fun t => Task.owner t ≠ User.id instance) (tasks db))
       (blacklist db) (user_seq db) (task_seq db).

Definition delete (db : DB) (request : Request) (pk : Z) : Response * DB :=
  generics.dispatch permission_classes request db (fun request_user =>
    match get_object db request_user pk with
    | inl exc => inl exc
    | inr user =>
        if User.eqb user request_user then
          inr (mkResponse HTTP_400_BAD_REQUEST
                 (Envelope false (Some "You cannot delete your own account") NoData []),
               db)
        else
          (* [super().delete]: the destroy action looks the row up again *)
          match get_object db request_user pk with
          | inl exc => inl exc
          | inr instance =>
              inr (mkResponse HTTP_204_NO_CONTENT (Plain NoData),
                   perform_destroy instance db)
          end
    end).

End AdminUserDetailView.

End accounts_views.

(** ** Definitions used to state the properties *)

(** The field errors and the validated items that the validation loop
    collects over a list of fields. *)
Definition errors_of (ext : External) (partial : bool) (s : DRF.Serializer)
    (data : Payload) (fs : list DRF.Field) : DRF.Errors :=
  omap (fun f =>
          match DRF.field_outcome ext partial s data f with
          | DRF.Fail detail => Some (DRF.field_name f, detail)
          | _ => None
          end) fs.

Definition values_of (ext : External) (partial : bool) (s : DRF.Serializer)
    (data : Payload) (fs : list DRF.Field) : DRF.ValidatedData :=
  omap (fun f =>
          match DRF.field_outcome ext partial s data f with
          | DRF.Ok v => Some (DRF.field_name f, v)
          | _ => None
          end) fs.

(** Primary keys are unique within a table. *)
Definition unique_task_ids (db : DB) : Prop := NoDup (Task.id <$> tasks db).
Definition unique_user_ids (db : DB) : Prop := NoDup (User.id <$> users db).

(** The four task states. *)
Definition STATUSES : list string := Task.STATUS_CHOICES.*1.

(** The transition table as the specification draws it: the pairs
    (from, to) that carry a check mark. *)
Definition spec_transitions : list (string * string) :=
  [("pending", "in_progress"); ("pending", "cancelled");
   ("in_progress", "pending"); ("in_progress", "completed");
   ("in_progress", "cancelled");
   ("completed", "pending");
   ("cancelled", "pending")].

Definition spec_allowed (from to : string) : Prop :=
  to = from \/ (from, to) ∈ spec_transitions.

#[global] Instance spec_allowed_dec from to : Decision (spec_allowed from to).
Proof. unfold spec_allowed. apply _. Defined.

Definition transition_message (from to : string) : string :=
  "Cannot transition from '" +:+ from +:+ "' to '" +:+ to +:+ "'.".

(** Sample rows and requests on which the properties are exercised. *)
Module Sample.

Definition ext : External :=
  Build_External
    (fun _ => true) (fun _ => true) (fun _ => [])
    (fun password => "pbkdf2$" +:+ password)
    (fun v => match v with Bool b => Some b | _ => None end)
    (fun s => Some s)
    (fun raw => Some raw)
    (fun pk => ("access", "refresh")).

Definition alice : User.t := User.mk 1 "alice@example.com" "alice" "x" "" "" "user" true.
Definition bob : User.t := User.mk 2 "bob@example.com" "bob" "x" "" "" "user" true.
Definition root : User.t := User.mk 3 "root@example.com" "root" "x" "" "" "admin" true.

Definition report : Task.t :=
  Task.mk 1 "Write report" None "completed" "medium" None 1.
Definition milk : Task.t :=
  Task.mk 2 "Buy milk" (Some "at the Shop") "pending" "low" None 2.

Definition db : DB := mkDB [alice; bob; root] [report; milk] [] 3 2.

Definition request (caller : option User.t) (data : list (string * Value))
    (query : list (string * string)) : Request :=
  mkRequest caller (list_to_map data) (list_to_map query).

End Sample.

(** The writable fields of the registration serializer. *)
Definition registration_fields : list string :=
  ["email"; "username"; "password"; "password_confirm"; "first_name"; "last_name"].


(** [needle] occurs in [hay]. *)
Definition substring (needle hay : string) : Prop :=
  exists pre post, hay = pre +:+ needle +:+ post.

(** A condition imposed by a query parameter that is present. *)
Definition when_present (o : option string) (P : string -> Prop) : Prop :=
  forall s, o = Some s -> P s.

(** A condition imposed by a query parameter that is present and not empty. *)
Definition when_supplied (o : option string) (P : string -> Prop) : Prop :=
  forall s, o = Some s -> s ≠ "" -> P s.

#[global] Instance when_supplied_dec o P `{!forall s, Decision (P s)} :
  Decision (when_supplied o P).
Proof.
  unfold when_supplied. destruct o as [s|].
  - destruct (decide (s = "")) as [->|Hne].
    + left. by intros s [= <-].
    + destruct (decide (P s)) as [HP|HP].
      * left. by intros s' [= <-].
      * right. intros Hall. by apply HP, Hall.
  - left. by intros s.
Defined.

(** The search text occurs in the title or in the description, letter
    case apart. *)
Definition search_hit (w : string) (t : Task.t) : Prop :=
  Str.icontains (Task.title t) w = true
  \/ match Task.description t with
     | Some d => Str.icontains d w = true
     | None => False
     end.

#[global] Instance search_hit_dec w t : Decision (search_hit w t).
Proof. unfold search_hit. destruct (Task.description t); apply _. Defined.

(** The filters of the task list as the specification words them: every
    parameter that is supplied constrains the result. *)
Definition spec_matches (query : gmap string string) (t : Task.t) : Prop :=
  when_present (query !! "status") (fun s => Task.status t = s)
  /\ when_present (query !! "priority") (fun p => Task.priority t = p)
  /\ when_present (query !! "search") (fun w => search_hit w t).

(** The same, with a parameter whose value is empty counted as omitted. *)
Definition matches (query : gmap string string) (t : Task.t) : Prop :=
  when_supplied (query !! "status") (fun s => Task.status t = s)
  /\ when_supplied (query !! "priority") (fun p => Task.priority t = p)
  /\ when_supplied (query !! "search") (fun w => search_hit w t).

#[global] Instance matches_dec query t : Decision (matches query t).
Proof. unfold matches. apply _. Defined.

(** The number of occurrences of a status in a list of statuses. *)
Fixpoint count_of (s : string) (statuses : list string) : Z :=
  match statuses with
  | [] => 0
  | s' :: rest => (if bool_decide (s' = s) then 1 else 0) + count_of s rest
  end.

(** The number of tasks of a list that have the given status. *)
Definition count_status (s : string) (ts : list Task.t) : Z :=
  count_of s (Task.status <$> ts).

(** ** The remaining views and serializers *)

Module tasks_admin_views.

Import permissions.

Module AdminTaskListView.

Definition permission_classes : list Permission := [IsAuthenticated; IsAdminUser].

(** [queryset = Task.objects.all()] *)
Definition get (db : DB) (request : Request) : Response * DB :=
  generics.dispatch permission_classes request db (fun _ =>
    inr (mkResponse HTTP_200_OK (Plain (TaskListData (tasks db))), db)).

End AdminTaskListView.

Module AdminTaskDeleteView.

Definition permission_classes : list Permission := [IsAuthenticated; IsAdminUser].

(** [queryset = Task.objects.all()] *)
Definition get_object (db : DB) (request_user : User.t) (pk : Z)
    : APIException + Task.t :=
  match generics.get_object_or_404 Task.id (tasks db) pk with
  | inl exc => inl exc
  | inr obj =>
      match check_object_permissions permission_classes request_user (WithOwner obj) with
      | Some exc => inl exc
      | None => inr obj
      end
  end.

Definition delete (db : DB) (request : Request) (pk : Z) : Response * DB :=
  generics.dispatch permission_classes request db (fun request_user =>
    match get_object db request_user pk with
    | inl exc => inl exc
    | inr task =>
        inr (mkResponse HTTP_200_OK
               (Envelope true (Some "Task deleted successfully") NoData []),
             set_tasks (filter (fun t => Task.id t ≠ Task.id task) (tasks db)) db)
    end).

End AdminTaskDeleteView.

End tasks_admin_views.

Module accounts_more.

Import permissions.

Module UserListSerializer.

(** [get_tasks_count]: [obj.tasks.count()], the reverse side of the
    foreign key [Task.owner]; a user row always has the [tasks] relation. *)
Definition get_tasks_count (db : DB) (obj : User.t) : Z :=
  Z.of_nat (length (filter (fun t => Task.owner t = User.id obj) (tasks db))).

(** The serialised row: the user columns and [tasks_count]. *)
Definition to_representation (db : DB) (obj : User.t) : User.t * Z :=
  (obj, get_tasks_count db obj).

End UserListSerializer.

Module AdminUserListView.

Definition permission_classes : list Permission := [IsAuthenticated; IsAdminUser].

(** [get]: the list action over [User.objects.all()]; the result is the
    exception that ends the request or the serialised rows of a 200
    response. *)
Definition get (db : DB) (request : Request) : APIException + list (User.t * Z) :=
  match check_permissions permission_classes (user request) with
  | Some exc => inl exc
  | None => inr (UserListSerializer.to_representation db <$> users db)
  end.

End AdminUserListView.

Module ChangePasswordSerializer.

Definition declared_fields : list string :=
  ["old_password"; "new_password"; "new_password_confirm"].

(** Each declared field is [CharField(required=True, write_only=True)]. *)
Definition declared_field (name : string) : DRF.Field :=
  DRF.mkField name (DRF.CharField None false) true false false DRF.no_validators.

Definition validate_new_password (ext : External) (value : string)
    : DRF.Validation string :=
  match password_errors ext value with
  | [] => DRF.Valid value
  | messages => DRF.Invalid messages
  end.

Definition serializer (ext : External) : DRF.Serializer :=
  DRF.mkSerializer
    (declared_field <$> declared_fields)
    (fun name =>
       if bool_decide (name = "new_password") then Some (validate_new_password ext)
       else None).

(** [validate]; [check_password raw hash] stands for the hasher's
    [user.check_password(raw)] against the stored hash. *)
Definition validate (check_password : string -> string -> bool) (request_user : User.t)
    (attrs : DRF.ValidatedData) : DRF.Errors + DRF.ValidatedData :=
  let old_password := accounts_serializers.get_str "old_password" "" attrs in
  let new_password := accounts_serializers.get_str "new_password" "" attrs in
  let new_password_confirm :=
    accounts_serializers.get_str "new_password_confirm" "" attrs in
  if negb (check_password old_password (User.password request_user))
  then inl [("old_password", ["Current password is incorrect."])]
  else if bool_decide (new_password ≠ new_password_confirm)
  then inl [("new_password_confirm", ["New passwords do not match."])]
  else if bool_decide (old_password = new_password)
  then inl [("new_password",
             ["New password must be different from current password."])]
  else inr attrs.

(** [serializer.is_valid()]: field validation, then [validate]. *)
Definition run_validation (ext : External) (check_password : string -> string -> bool)
    (request_user : User.t) (data : Payload) : DRF.Errors + DRF.ValidatedData :=
  match DRF.to_internal_value ext false (serializer ext) data with
  | inl errors => inl errors
  | inr attrs => validate check_password request_user attrs
  end.

End ChangePasswordSerializer.

Module ChangePasswordView.

Definition permission_classes : list Permission := [IsAuthenticated].

(** [user.set_password(raw)] *)
Definition set_password (ext : External) (raw : string) (u : User.t) : User.t :=
  User.mk (User.id u) (User.email u) (User.username u) (make_password ext raw)
    (User.first_name u) (User.last_name u) (User.role u) (User.is_active u).

Definition put (ext : External) (check_password : string -> string -> bool)
    (db : DB) (request : Request) : Response * DB :=
  generics.dispatch permission_classes request db (fun request_user =>
    match ChangePasswordSerializer.run_validation ext check_password request_user
            (data request) with
    | inr validated_data =>
        let user :=
          set_password ext
            (accounts_serializers.get_str "new_password" "" validated_data)
            request_user in
        inr (mkResponse HTTP_200_OK
               (Envelope true (Some "Password changed successfully") NoData []),
             accounts_serializers.save user db)
    | inl errors =>
        inr (mkResponse HTTP_400_BAD_REQUEST
               (Envelope false (Some "Password change failed") NoData errors),
             db)
    end).

End ChangePasswordView.

End accounts_more.

(** ** The message of the error envelope ([config/exceptions.py]) *)

Module error_message.

(** A value of the error data: a text or a list of texts. *)
Inductive ErrorValue :=
| Text (s : string)
| Items (l : list string).

(** [response.data]: a dictionary (in insertion order) or a list. *)
Inductive ResponseData :=
| DictData (d : list (string * ErrorValue))
| ListData (l : list string).

(** The message: a text, or [str(response.data)] of the whole data. *)
Inductive Message :=
| Msg (s : string)
| StrOfData.

(** [response.data[field]] *)
Fixpoint lookup_key (field : string) (d : list (string * ErrorValue))
    : option ErrorValue :=
  match d with
  | [] => None
  | (k, v) :: d' => if bool_decide (k = field) then Some v else lookup_key field d'
  end.

(** The first loop: the first of the common fields that is present decides. *)
Fixpoint common_field (fields : list string) (d : list (string * ErrorValue))
    : option string :=
  match fields with
  | [] => None
  | field :: rest =>
      match lookup_key field d with
      | Some (Items (first :: _)) => Some first
      | Some (Items []) => Some "An error occurred"
      | Some (Text s) => Some s
      | None => common_field rest d
      end
  end.

(** The second loop: the first entry whose value is not empty. *)
Fixpoint first_error (d : list (string * ErrorValue)) : option string :=
  match d with
  | [] => None
  | (key, Items (first :: _)) :: _ => Some (key +:+ ": " +:+ first)
  | (key, Items []) :: d' => first_error d'
  | (key, Text s) :: d' =>
      if Str.truthy s then Some (key +:+ ": " +:+ s) else first_error d'
  end.

Definition get_error_message (data : ResponseData) : Message :=
  match data with
  | DictData d =>
      match common_field ["detail"; "message"; "error"; "non_field_errors"] d with
      | Some m => Msg m
      | None =>
          match first_error d with
          | Some m => Msg m
          | None =>
              match d with
              | [] => Msg "An error occurred"
              | _ => StrOfData
              end
          end
      end
  | ListData [] => Msg "An error occurred"
  | ListData _ => StrOfData
  end.

(** The error dictionary of a serializer as response data. *)
Definition of_errors (errors : DRF.Errors) : ResponseData :=
  DictData ((fun kv => (kv.1, Items kv.2)) <$> errors).

End error_message.

(** ** Further definitions used to state properties *)

Definition ROLES : list string := User.ROLE_CHOICES.*1.



(** Every task has an owner in the users table. *)
Definition owners_exist (db : DB) : Prop :=
  Forall (fun t => Task.owner t ∈ User.id <$> users db) (tasks db).

(** A chain of status updates, each accepted by [validate_status] for a
    task that currently has the previous status. *)
Fixpoint accepted_path (from : string) (path : list string) : bool :=
  match path with
  | [] => true
  | to :: rest =>
      match tasks_serializers.TaskSerializer.validate_status
              (Some (Task.mk 0 "" None from "" None 0)) to with
      | DRF.Valid _ => accepted_path to rest
      | DRF.Invalid _ => false
      end
  end.


(** The primary keys are sound: no key is stored twice and the counters
    that hand out new keys are not below any stored key. *)
Definition keys_sound (db : DB) : Prop :=
  unique_task_ids db /\ unique_user_ids db
  /\ Forall (fun pk => pk <= task_seq db) (Task.id <$> tasks db)
  /\ Forall (fun pk => pk <= user_seq db) (User.id <$> users db).

(** * Properties *)

(** ** The validation loop *)

Section validation_loop.

Context (ext : External) (partial : bool) (s : DRF.Serializer) (data : Payload).

Lemma foldl_validate_one fs acc :
  foldl (DRF.validate_one ext partial s data) acc fs
  = ((acc.1 ++ errors_of ext partial s data fs)%list,
     (acc.2 ++ values_of ext partial s data fs)%list).
Proof.
  revert acc. induction fs as [|f fs IH]; intros [errors ret]; simpl.
  - by rewrite !app_nil_r.
  - rewrite IH. unfold DRF.validate_one.
    destruct (DRF.field_outcome ext partial s data f); simpl;
      by rewrite <- ?app_assoc.
Qed.

Lemma to_internal_value_unfold :
  DRF.to_internal_value ext partial s data
  = match errors_of ext partial s data (DRF._writable_fields s) with
    | [] => inr (values_of ext partial s data (DRF._writable_fields s))
    | errors => inl errors
    end.
Proof.
  unfold DRF.to_internal_value. rewrite foldl_validate_one. simpl.
  by destruct (errors_of ext partial s data (DRF._writable_fields s)).
Qed.

Lemma values_of_keys fs : (values_of ext partial s data fs).*1 ⊆ DRF.field_name <$> fs.
Proof.
  induction fs as [|f fs IH]; simpl; [done|].
  unfold values_of in *. simpl.
  destruct (DRF.field_outcome ext partial s data f); simpl; set_solver.
Qed.

Lemma errors_of_fail fs f detail :
  f ∈ fs -> DRF.field_outcome ext partial s data f = DRF.Fail detail ->
  (DRF.field_name f, detail) ∈ errors_of ext partial s data fs.
Proof.
  intros Hf Hout. unfold errors_of. apply list_elem_of_omap.
  exists f. by rewrite Hout.
Qed.

Lemma errors_of_elem fs name detail :
  (name, detail) ∈ errors_of ext partial s data fs ->
  exists f, f ∈ fs /\ DRF.field_name f = name
            /\ DRF.field_outcome ext partial s data f = DRF.Fail detail.
Proof.
  unfold errors_of. intros (f & Hf & Hout)%list_elem_of_omap.
  exists f. destruct (DRF.field_outcome ext partial s data f); naive_solver.
Qed.

Lemma to_internal_value_keys validated_data :
  DRF.to_internal_value ext partial s data = inr validated_data ->
  validated_data.*1 ⊆ DRF.field_name <$> DRF._writable_fields s.
Proof.
  rewrite to_internal_value_unfold.
  destruct (errors_of _ _ _ _ _); [|done].
  intros [= <-]. apply values_of_keys.
Qed.

Lemma to_internal_value_fail f detail :
  f ∈ DRF._writable_fields s ->
  DRF.field_outcome ext partial s data f = DRF.Fail detail ->
  exists errors, DRF.to_internal_value ext partial s data = inl errors
                 /\ (DRF.field_name f, detail) ∈ errors.
Proof.
  intros Hf Hout. rewrite to_internal_value_unfold.
  pose proof (errors_of_fail _ _ _ Hf Hout) as Hin.
  destruct (errors_of _ _ _ _ _) as [|e errors] eqn:E.
  - by apply elem_of_nil in Hin.
  - eauto.
Qed.

End validation_loop.

(** ** Small facts about rows and tables *)

Lemma task_setattr_owner t attr v :
  attr ≠ "owner" -> Task.owner (tasks_serializers.setattr t attr v) = Task.owner t.
Proof.
  intros Hattr. destruct t. unfold tasks_serializers.setattr.
  repeat case_bool_decide; try done; by destruct v.
Qed.

Lemma task_setattr_id t attr v :
  attr ≠ "id" -> Task.id (tasks_serializers.setattr t attr v) = Task.id t.
Proof.
  intros Hattr. destruct t. unfold tasks_serializers.setattr.
  repeat case_bool_decide; try done; by destruct v.
Qed.

Lemma task_setattr_status t attr v :
  attr ≠ "status" -> Task.status (tasks_serializers.setattr t attr v) = Task.status t.
Proof.
  intros Hattr. destruct t. unfold tasks_serializers.setattr.
  repeat case_bool_decide; try done; by destruct v.
Qed.

Lemma task_foldl_setattr (proj : Task.t -> Z) (name : string) t (d : DRF.ValidatedData) :
  (forall t attr v, attr ≠ name -> proj (tasks_serializers.setattr t attr v) = proj t) ->
  name ∉ d.*1 ->
  proj (foldl (fun t kv => tasks_serializers.setattr t kv.1 kv.2) t d) = proj t.
Proof.
  intros Hproj. revert t. induction d as [|[k v] d IH]; intros t Hname; simpl; [done|].
  rewrite IH; [|set_solver]. apply Hproj. set_solver.
Qed.

Lemma task_foldl_setattr_status t (d : DRF.ValidatedData) :
  "status" ∉ d.*1 ->
  Task.status (foldl (fun t kv => tasks_serializers.setattr t kv.1 kv.2) t d)
  = Task.status t.
Proof.
  revert t. induction d as [|[k v] d IH]; intros t Hname; simpl; [done|].
  rewrite IH; [|set_solver]. apply task_setattr_status. set_solver.
Qed.

Lemma NoDup_fmap_eq {A B} (f : A -> B) (l : list A) x y :
  NoDup (f <$> l) -> x ∈ l -> y ∈ l -> f x = f y -> x = y.
Proof.
  induction l as [|a l IH]; simpl; intros Hnd Hx Hy Hf.
  - by apply elem_of_nil in Hx.
  - apply NoDup_cons in Hnd as [Hnotin Hnd].
    apply elem_of_cons in Hx as [->|Hx]; apply elem_of_cons in Hy as [->|Hy];
      [done| | |by apply IH].
    + exfalso. apply Hnotin. rewrite Hf. by apply list_elem_of_fmap_2.
    + exfalso. apply Hnotin. rewrite <- Hf. by apply list_elem_of_fmap_2.
Qed.

Lemma list_find_Some_elem {A} (P : A -> Prop) `{forall x, Decision (P x)} (l : list A) i x :
  list_find P l = Some (i, x) -> x ∈ l /\ P x.
Proof.
  intros (Hl & HP & _)%list_find_Some. split; [|done].
  by eapply list_elem_of_lookup_2.
Qed.

Lemma get_object_or_404_inr {A} (pk_of : A -> Z) (queryset : list A) pk row :
  generics.get_object_or_404 pk_of queryset pk = inr row ->
  row ∈ queryset /\ pk_of row = pk.
Proof.
  unfold generics.get_object_or_404.
  destruct (list_find _ _) as [[i x]|] eqn:E; [|done].
  intros [= <-]. by apply list_find_Some_elem in E.
Qed.

Lemma get_object_or_404_inl {A} (pk_of : A -> Z) (queryset : list A) pk exc :
  generics.get_object_or_404 pk_of queryset pk = inl exc ->
  exc = Http404 /\ forall row, row ∈ queryset -> pk_of row ≠ pk.
Proof.
  unfold generics.get_object_or_404.
  destruct (list_find _ _) as [[i x]|] eqn:E; [done|].
  intros [= <-]. split; [done|].
  intros row Hrow. rewrite list_find_None in E.
  by eapply Forall_forall in E.
Qed.

Lemma get_object_or_404_found {A} (pk_of : A -> Z) (queryset : list A) row :
  NoDup (pk_of <$> queryset) -> row ∈ queryset ->
  generics.get_object_or_404 pk_of queryset (pk_of row) = inr row.
Proof.
  intros Hnd Hrow.
  destruct (generics.get_object_or_404 pk_of queryset (pk_of row)) as [exc|row'] eqn:E.
  - apply get_object_or_404_inl in E as [_ E]. by destruct (E row Hrow).
  - apply get_object_or_404_inr in E as [Hrow' Hpk].
    f_equal. by eapply NoDup_fmap_eq.
Qed.

(** ** C1: the status state machine *)

Import tasks_serializers tasks_views.

Lemma statuses_cases s :
  s ∈ STATUSES ->
  s = "pending" \/ s = "in_progress" \/ s = "completed" \/ s = "cancelled".
Proof. unfold STATUSES. simpl. rewrite !elem_of_cons, elem_of_nil. tauto. Qed.

Ltac each_status H :=
  apply statuses_cases in H; destruct H as [->|[->|[->| ->]]].

Lemma validate_status_decide instance to :
  Task.status instance ∈ STATUSES -> to ∈ STATUSES ->
  TaskSerializer.validate_status (Some instance) to
  = if bool_decide (spec_allowed (Task.status instance) to)
    then DRF.Valid to
    else DRF.Invalid [transition_message (Task.status instance) to].
Proof.
  destruct instance as [id title description from priority due_date owner]. simpl.
  intros Hfrom Hto. each_status Hfrom; each_status Hto; vm_compute; reflexivity.
Qed.

Lemma TaskSerializer_writable db instance :
  DRF._writable_fields (TaskSerializer.serializer db instance)
  = model_field db <$> ["title"; "description"; "status"; "priority"; "due_date"].
Proof. reflexivity. Qed.

Lemma TaskCreateSerializer_writable db :
  DRF._writable_fields (TaskCreateSerializer.serializer db)
  = model_field db <$> ["title"; "description"; "priority"; "due_date"].
Proof. reflexivity. Qed.

Lemma status_field_outcome ext partial db instance (data : Payload) to :
  Task.status instance ∈ STATUSES -> to ∈ STATUSES ->
  data !! "status" = Some (Str to) ->
  DRF.field_outcome ext partial (TaskSerializer.serializer db (Some instance)) data
    (model_field db "status")
  = if bool_decide (spec_allowed (Task.status instance) to)
    then DRF.Ok (Str to)
    else DRF.Fail [transition_message (Task.status instance) to].
Proof.
  intros Hfrom Hto Hdata. unfold DRF.field_outcome. simpl. rewrite Hdata.
  assert (DRF.run_validation ext partial (model_field db "status") (Some (Str to))
          = DRF.Ok (Str to)) as ->.
  { each_status Hto; reflexivity. }
  pose proof (validate_status_decide instance to Hfrom Hto) as Hvalidate.
  simpl in *. rewrite Hvalidate. clear Hvalidate.
  by destruct (bool_decide (spec_allowed _ _)).
Qed.

Lemma patch_status_only ext db instance to :
  Task.status instance ∈ STATUSES -> to ∈ STATUSES ->
  DRF.to_internal_value ext true (TaskSerializer.serializer db (Some instance))
    {[ "status" := Str to ]}
  = if bool_decide (spec_allowed (Task.status instance) to)
    then inr [("status", Str to)]
    else inl [("status", [transition_message (Task.status instance) to])].
Proof.
  intros Hfrom Hto. rewrite to_internal_value_unfold, TaskSerializer_writable.
  pose proof (status_field_outcome ext true db instance {[ "status" := Str to ]} to
                Hfrom Hto (lookup_singleton_eq _ _)) as Hstatus.
  unfold errors_of, values_of. simpl. rewrite Hstatus.
  unfold DRF.field_outcome. simpl.
  rewrite !lookup_singleton_ne by done. simpl.
  by destruct (bool_decide (spec_allowed _ _)).
Qed.

Lemma dispatch_authenticated permission_classes request db handler request_user :
  user request = Some request_user ->
  permissions.check_permissions permission_classes (Some request_user) = None ->
  generics.dispatch permission_classes request db handler
  = match handler request_user with
    | inl exc => (exceptions.custom_exception_handler exc, db)
    | inr result => result
    end.
Proof. intros Huser Hperm. unfold generics.dispatch. by rewrite Huser, Hperm. Qed.

Lemma dispatch_cases permission_classes request db handler :
  (exists exc, generics.dispatch permission_classes request db handler
               = (exceptions.custom_exception_handler exc, db))
  \/ (exists request_user result,
        user request = Some request_user
        /\ handler request_user = inr result
        /\ generics.dispatch permission_classes request db handler = result).
Proof.
  unfold generics.dispatch.
  destruct (permissions.check_permissions _ _) as [exc|]; [left; eauto|].
  destruct (user request) as [request_user|]; [|left; eauto].
  destruct (handler request_user) as [exc|result] eqn:E; [left; eauto|].
  right. eauto.
Qed.

Lemma set_item_keys name v (d : DRF.ValidatedData) :
  (TaskCreateSerializer.set_item name v d).*1 ⊆ name :: d.*1.
Proof.
  unfold TaskCreateSerializer.set_item.
  case_bool_decide as Hin; [clear Hin|rewrite fmap_app; set_solver].
  induction d as [|[k w] d IH]; simpl; [apply list_subseteq_nil|].
  case_bool_decide; simpl in *; set_solver.
Qed.

Lemma create_keys ext db data validated_data :
  DRF.to_internal_value ext false (TaskCreateSerializer.serializer db) data
  = inr validated_data ->
  validated_data.*1 ⊆ ["title"; "description"; "priority"; "due_date"].
Proof.
  intros Hvalid%to_internal_value_keys.
  by rewrite TaskCreateSerializer_writable in Hvalid.
Qed.

Lemma create_starts_pending ext db request task message errors :
  body (TaskListCreateView.post ext db request).1
  = Envelope true message (TaskData task) errors ->
  Task.status task = "pending".
Proof.
  unfold TaskListCreateView.post.
  destruct (dispatch_cases TaskListCreateView.permission_classes request db
    (fun request_user =>
       match DRF.to_internal_value ext false (TaskCreateSerializer.serializer db)
               (data request) with
       | inr validated_data =>
           match TaskCreateSerializer.create request_user validated_data db with
           | Some (task, db') =>
               inr (mkResponse HTTP_201_CREATED
                      (Envelope true (Some "Task created successfully") (TaskData task) []),
                    db')
           | None => inl Unhandled
           end
       | inl errors =>
           inr (mkResponse HTTP_400_BAD_REQUEST
                  (Envelope false (Some "Task creation failed") NoData errors),
                db)
       end))
    as [[exc ->]|(request_user & result & _ & Hhandler & ->)].
  { by destruct exc. }
  destruct (DRF.to_internal_value _ _ _ _) as [errs|validated_data] eqn:Hvalid.
  { by injection Hhandler as <-. }
  apply create_keys in Hvalid.
  unfold TaskCreateSerializer.create, model_create in Hhandler.
  pose proof (set_item_keys "owner" (Num (User.id request_user)) validated_data) as Hkeys.
  destruct (DRF.get "owner" _) as [[| owner | |]|]; try done.
  injection Hhandler as <-. simpl. intros [= _ <- _].
  rewrite task_foldl_setattr_status; [done|]. set_solver.
Qed.

Lemma task_update_unfold partial ext db request pk request_user instance :
  user request = Some request_user ->
  TaskDetailView.get_object db request_user pk = inr instance ->
  TaskDetailView.update partial ext db request pk
  = match DRF.to_internal_value ext partial
            (TaskSerializer.serializer db (Some instance)) (data request) with
    | inl errors => (exceptions.custom_exception_handler (ValidationError errors), db)
    | inr validated_data =>
        (mkResponse HTTP_200_OK
           (Plain (TaskData (tasks_serializers.update instance validated_data db).1)),
         (tasks_serializers.update instance validated_data db).2)
    end.
Proof.
  intros Huser Hget. unfold TaskDetailView.update.
  rewrite (dispatch_authenticated _ _ _ _ request_user) by done.
  rewrite Hget. by destruct (DRF.to_internal_value _ _ _ _).
Qed.

Lemma status_field_writable db instance :
  model_field db "status" ∈ DRF._writable_fields (TaskSerializer.serializer db instance).
Proof. rewrite TaskSerializer_writable. simpl. set_solver. Qed.

Lemma writable_status_field db instance f :
  f ∈ DRF._writable_fields (TaskSerializer.serializer db instance) ->
  DRF.field_name f = "status" -> f = model_field db "status".
Proof.
  rewrite TaskSerializer_writable. simpl.
  rewrite !elem_of_cons, elem_of_nil. intros [->|[->|[->|[->|[->|[]]]]]]; done.
Qed.

(** C1.  On update, for a current status [from] and a requested status [to]
    among the four states, [validate_status] accepts exactly when
    [to = from] or the pair is in the transition table; every other pair is
    rejected with the validation error "Cannot transition from 'from' to
    'to'.".  At the view: an update that carries only the status succeeds
    exactly for those pairs (answering 400 with that error under [status]
    otherwise), any update carrying a rejected pair fails that way whatever
    else it carries, and an accepted pair never produces an error on
    [status].  The check is not applied on create: without an instance
    every value passes, and every created task starts as [pending]. *)
Theorem status_transition_rule (ext : External) (db : DB) (request_user : User.t)
    (instance : Task.t) (pk : Z) (to : string) :
  Task.status instance ∈ STATUSES ->
  to ∈ STATUSES ->
  TaskDetailView.get_object db request_user pk = inr instance ->
  let from := Task.status instance in
  (TaskSerializer.validate_status (Some instance) to = DRF.Valid to
   <-> spec_allowed from to)
  /\ (~ spec_allowed from to ->
      TaskSerializer.validate_status (Some instance) to
      = DRF.Invalid [transition_message from to])
  /\ (forall query,
        TaskDetailView.patch ext db
          (mkRequest (Some request_user) {[ "status" := Str to ]} query) pk
        = if bool_decide (spec_allowed from to)
          then (mkResponse 200 (Plain (TaskData (setattr instance "status" (Str to)))),
                save (setattr instance "status" (Str to)) db)
          else (mkResponse 400
                  (ErrorBody "BAD_REQUEST"
                     (ValidationError [("status", [transition_message from to])])),
                db))
  /\ Task.status (setattr instance "status" (Str to)) = to
  /\ (~ spec_allowed from to ->
      forall partial data query,
        data !! "status" = Some (Str to) ->
        exists errors,
          TaskDetailView.update partial ext db
            (mkRequest (Some request_user) data query) pk
          = (mkResponse 400 (ErrorBody "BAD_REQUEST" (ValidationError errors)), db)
          /\ ("status", [transition_message from to]) ∈ errors)
  /\ (spec_allowed from to ->
      forall partial data query code errors,
        data !! "status" = Some (Str to) ->
        body (TaskDetailView.update partial ext db
                (mkRequest (Some request_user) data query) pk).1
        = ErrorBody code (ValidationError errors) ->
        "status" ∉ errors.*1)
  /\ (forall value, TaskSerializer.validate_status None value = DRF.Valid value)
  /\ (forall request task message errors,
        body (TaskListCreateView.post ext db request).1
        = Envelope true message (TaskData task) errors ->
        Task.status task = "pending").
Proof.
  intros Hfrom Hto Hget from.
  pose proof (validate_status_decide instance to Hfrom Hto) as Hvalidate.
  fold from in Hvalidate.
  repeat split.
  - intros Hvalid. rewrite Hvalid in Hvalidate.
    destruct (decide (spec_allowed from to)); [done|].
    by rewrite bool_decide_eq_false_2 in Hvalidate.
  - intros Hallowed. by rewrite bool_decide_eq_true_2 in Hvalidate.
  - intros Hnot. by rewrite bool_decide_eq_false_2 in Hvalidate.
  - intros query. unfold TaskDetailView.patch.
    rewrite (task_update_unfold _ _ _ _ _ request_user instance) by done.
    simpl. rewrite patch_status_only by done. fold from.
    by destruct (bool_decide (spec_allowed from to)).
  - destruct instance. by simpl.
  - intros Hnot partial data query Hdata.
    rewrite (task_update_unfold _ _ _ _ _ request_user instance) by done.
    pose proof (status_field_outcome ext partial db instance data to Hfrom Hto Hdata)
      as Hout.
    fold from in Hout. rewrite bool_decide_eq_false_2 in Hout by done.
    simpl.
    destruct (to_internal_value_fail _ _ _ _ _ _ (status_field_writable db _) Hout)
      as (errors & -> & Hin).
    exists errors. by split.
  - intros Hallowed partial data query code errors Hdata.
    rewrite (task_update_unfold _ _ _ _ _ request_user instance) by done.
    simpl. rewrite to_internal_value_unfold.
    destruct (errors_of _ _ _ _ _) as [|e errs] eqn:Herrors; [done|].
    simpl. intros [= _ <-]. rewrite <- Herrors.
    intros ([name detail] & Hname & Hin)%list_elem_of_fmap. simpl in Hname. subst name.
    apply errors_of_elem in Hin as (f & Hf & Hname & Hfail).
    apply writable_status_field in Hf as ->; [|done].
    rewrite (status_field_outcome ext partial db instance data to) in Hfail by done.
    fold from in Hfail. by rewrite bool_decide_eq_true_2 in Hfail.
  - intros request task message errors. apply create_starts_pending.
Qed.

Lemma status_transition_rule_witness :
  (TaskSerializer.validate_status (Some Sample.report) "in_progress"
   = DRF.Valid "in_progress"
   <-> spec_allowed "completed" "in_progress")
  /\ (TaskSerializer.validate_status (Some Sample.report) "pending"
      = DRF.Valid "pending"
      <-> spec_allowed "completed" "pending").
Proof.
  assert (forall s, bool_decide (s ∈ STATUSES) = true -> s ∈ STATUSES) as Hin.
  { intros s. apply bool_decide_eq_true_1. }
  split.
  - apply (status_transition_rule Sample.ext Sample.db Sample.alice Sample.report 1
             "in_progress"); [apply Hin; reflexivity..|reflexivity].
  - apply (status_transition_rule Sample.ext Sample.db Sample.alice Sample.report 1
             "pending"); [apply Hin; reflexivity..|reflexivity].
Defined.

(** ** C2 and C6: registration *)

Import accounts_serializers accounts_views.





Lemma registration_writable ext db :
  DRF._writable_fields (UserRegistrationSerializer.serializer ext db)
  = UserRegistrationSerializer.build_field ext db <$> registration_fields.
Proof. reflexivity. Qed.






Lemma registration_created ext db request :
  status_code (UserRegistrationView.post ext db request).1 = 201 ->
  exists validated_data,
    DRF.to_internal_value ext false (UserRegistrationSerializer.serializer ext db)
      (data request) = inr validated_data
    /\ UserRegistrationView.post ext db request
       = let '(created, db') :=
           UserRegistrationSerializer.create ext validated_data db in
         (mkResponse 201
            (Envelope true (Some "User registered successfully")
               (RegistrationData created (jwt_for_user ext (User.id created)).1
                  (jwt_for_user ext (User.id created)).2) []),
          db').
Proof.
  unfold UserRegistrationView.post, UserRegistrationSerializer.run_validation.
  destruct (DRF.to_internal_value _ _ _ _) as [errors|attrs] eqn:Hattrs; [done|].
  unfold UserRegistrationSerializer.validate. case_bool_decide; [done|].
  intros _. exists attrs. split; [done|].
  destruct (UserRegistrationSerializer.create ext attrs db) as [created db'].
  by destruct (jwt_for_user ext (User.id created)).
Qed.



Lemma create_user_row ext email username password first_name last_name role db :
  let '(created, db') :=
    create_user ext email username password first_name last_name role db in
  User.email created = email /\ User.username created = username
  /\ User.role created = role /\ users db' = (users db ++ [created])%list
  /\ tasks db' = tasks db /\ blacklist db' = blacklist db.
Proof. by simpl. Qed.

(** C2.  Whenever registration succeeds (201), the response carries the
    created user, that user's role is [user], and it is the one row added
    to the users table.  A [role] member of the request is never read: the
    outcome of registration is the same with any [role] value put into the
    request. *)
Theorem registration_forces_user_role (ext : External) (db : DB) (request : Request) :
  (status_code (UserRegistrationView.post ext db request).1 = 201 ->
   exists created access refresh,
     body (UserRegistrationView.post ext db request).1
     = Envelope true (Some "User registered successfully")
         (RegistrationData created access refresh) []
     /\ User.role created = "user"
     /\ users (UserRegistrationView.post ext db request).2
        = (users db ++ [created])%list)
  /\ (forall role : Value,
        UserRegistrationView.post ext db
          (mkRequest (user request) (<["role" := role]> (data request))
             (query_params request))
        = UserRegistrationView.post ext db request).
Proof.
  split.
  - intros (validated_data & _ & ->)%registration_created.
    unfold UserRegistrationSerializer.create.
    match goal with |- context [create_user ?e ?a ?b ?c ?d ?f ?r ?db] =>
      pose proof (create_user_row e a b c d f r db) as Hrow;
      destruct (create_user e a b c d f r db) as [created db'] end.
    destruct Hrow as (_ & _ & Hrole & Husers & _).
    eexists created, _, _. simpl. eauto.
  - intros role. unfold UserRegistrationView.post,
      UserRegistrationSerializer.run_validation.
    rewrite !to_internal_value_unfold, registration_writable.
    unfold errors_of, values_of, DRF.field_outcome. simpl.
    by rewrite !lookup_insert_ne.
Qed.

Lemma registration_forces_user_role_witness :
  exists created access refresh,
    body (UserRegistrationView.post Sample.ext Sample.db
            (Sample.request None
               [("email", Str "Carol@Example.com"); ("username", Str "Carol");
                ("password", Str "s3cret-pass"); ("password_confirm", Str "s3cret-pass");
                ("role", Str "admin")] [])).1
    = Envelope true (Some "User registered successfully")
        (RegistrationData created access refresh) []
    /\ User.role created = "user"
    /\ users (UserRegistrationView.post Sample.ext Sample.db
                (Sample.request None
                   [("email", Str "Carol@Example.com"); ("username", Str "Carol");
                    ("password", Str "s3cret-pass");
                    ("password_confirm", Str "s3cret-pass");
                    ("role", Str "admin")] [])).2
       = (users Sample.db ++ [created])%list.
Proof.
  apply (registration_forces_user_role Sample.ext Sample.db). vm_compute. reflexivity.
Defined.




(** ** C4: the owner of a task *)

Lemma base_queryset_elem db request_user t :
  t ∈ base_queryset db request_user <->
  t ∈ tasks db /\ (User.role request_user = "admin" \/ Task.owner t = User.id request_user).
Proof.
  unfold base_queryset. case_bool_decide as Hadmin.
  - tauto.
  - rewrite list_elem_of_filter. tauto.
Qed.

Lemma task_get_object_inr db request_user pk instance :
  TaskDetailView.get_object db request_user pk = inr instance ->
  instance ∈ tasks db /\ Task.id instance = pk
  /\ (User.role request_user = "admin" \/ Task.owner instance = User.id request_user).
Proof.
  unfold TaskDetailView.get_object, TaskDetailView.get_queryset.
  destruct (generics.get_object_or_404 _ _ _) as [exc|obj] eqn:E; [done|].
  apply get_object_or_404_inr in E as [Hin Hpk].
  apply base_queryset_elem in Hin as [Hin Hsee].
  destruct (permissions.check_object_permissions _ _ _); [done|].
  by intros [= <-].
Qed.

Lemma task_save_owners instance instance' db :
  unique_task_ids db -> instance ∈ tasks db ->
  Task.id instance' = Task.id instance -> Task.owner instance' = Task.owner instance ->
  Task.owner <$> tasks (tasks_serializers.save instance' db) = Task.owner <$> tasks db
  /\ Task.id <$> tasks (tasks_serializers.save instance' db) = Task.id <$> tasks db.
Proof.
  intros Hunique Hin Hid Howner. unfold tasks_serializers.save. simpl.
  rewrite <- !list_fmap_compose.
  split; apply Forall_fmap_ext_1, Forall_forall; intros t Ht; simpl;
    case_bool_decide as Heq; try done.
  rewrite Howner. f_equal. symmetry. eapply (NoDup_fmap_eq Task.id); eauto. congruence.
Qed.

Lemma task_update_row instance (validated_data : DRF.ValidatedData) db :
  validated_data.*1 ⊆ ["title"; "description"; "status"; "priority"; "due_date"] ->
  Task.owner (tasks_serializers.update instance validated_data db).1 = Task.owner instance
  /\ Task.id (tasks_serializers.update instance validated_data db).1 = Task.id instance.
Proof.
  intros Hkeys. unfold tasks_serializers.update. simpl. split.
  - apply (task_foldl_setattr Task.owner "owner"); [apply task_setattr_owner|set_solver].
  - apply (task_foldl_setattr Task.id "id"); [apply task_setattr_id|set_solver].
Qed.

Lemma task_update_keys ext partial db instance data validated_data :
  DRF.to_internal_value ext partial (TaskSerializer.serializer db instance) data
  = inr validated_data ->
  validated_data.*1 ⊆ ["title"; "description"; "status"; "priority"; "due_date"].
Proof.
  intros Hvalid%to_internal_value_keys.
  by rewrite TaskSerializer_writable in Hvalid.
Qed.

Lemma task_update_cases partial ext db request pk :
  (exists exc, TaskDetailView.update partial ext db request pk
               = (exceptions.custom_exception_handler exc, db))
  \/ (exists request_user instance validated_data,
        user request = Some request_user
        /\ TaskDetailView.get_object db request_user pk = inr instance
        /\ DRF.to_internal_value ext partial
             (TaskSerializer.serializer db (Some instance)) (data request)
           = inr validated_data
        /\ TaskDetailView.update partial ext db request pk
           = (mkResponse HTTP_200_OK
                (Plain (TaskData (tasks_serializers.update instance validated_data db).1)),
              (tasks_serializers.update instance validated_data db).2)).
Proof.
  unfold TaskDetailView.update.
  match goal with |- context [generics.dispatch ?p ?r ?d ?h] =>
    destruct (dispatch_cases p r d h)
      as [[exc ->]|(request_user & result & Huser & Hhandler & ->)] end;
    [left; eauto|].
  destruct (TaskDetailView.get_object db request_user pk) as [exc|instance] eqn:Hget;
    [done|].
  destruct (DRF.to_internal_value _ _ _ _) as [errors|validated_data] eqn:Hvalid;
    [done|].
  right. exists request_user, instance, validated_data.
  repeat split; try done.
  destruct (tasks_serializers.update instance validated_data db). by injection Hhandler.
Qed.

Lemma set_item_fresh name v (d : DRF.ValidatedData) :
  name ∉ d.*1 -> TaskCreateSerializer.set_item name v d = (d ++ [(name, v)])%list.
Proof. intros Hfresh. unfold TaskCreateSerializer.set_item. by rewrite bool_decide_eq_false_2. Qed.

Lemma get_app_fresh name v (d : DRF.ValidatedData) :
  name ∉ d.*1 -> DRF.get name (d ++ [(name, v)]) = Some v.
Proof.
  induction d as [|[k w] d IH]; simpl; intros Hfresh.
  - by rewrite bool_decide_eq_true_2.
  - rewrite bool_decide_eq_false_2 by set_solver. apply IH. set_solver.
Qed.





(** ** C10: what an administrator can change on a user *)

Lemma user_setattr_proj {B} (proj : User.t -> B) (name : string) :
  (forall id email username password first_name last_name role is_active s,
     name ≠ "email" ->
     proj (User.mk id s username password first_name last_name role is_active)
     = proj (User.mk id email username password first_name last_name role is_active)) ->
  (forall id email username password first_name last_name role is_active s,
     name ≠ "username" ->
     proj (User.mk id email s password first_name last_name role is_active)
     = proj (User.mk id email username password first_name last_name role is_active)) ->
  (forall id email username password first_name last_name role is_active pk,
     name ≠ "id" ->
     proj (User.mk pk email username password first_name last_name role is_active)
     = proj (User.mk id email username password first_name last_name role is_active)) ->
  (forall id email username password first_name last_name role is_active s1 s2 s3 b,
     proj (User.mk id email username password s1 s2 s3 b)
     = proj (User.mk id email username password first_name last_name role is_active)) ->
  forall u attr v, attr ≠ name -> proj (accounts_serializers.setattr u attr v) = proj u.
Proof.
  intros Hemail Husername Hid Hrest u attr v Hattr. destruct u.
  unfold accounts_serializers.setattr.
  repeat case_bool_decide; subst; destruct v; try done;
    first [apply Hemail|apply Husername|apply Hid|apply Hrest]; congruence.
Qed.

Lemma user_setattr_id u attr v :
  attr ≠ "id" -> User.id (accounts_serializers.setattr u attr v) = User.id u.
Proof. by apply (user_setattr_proj User.id "id"). Qed.

Lemma user_setattr_email u attr v :
  attr ≠ "email" -> User.email (accounts_serializers.setattr u attr v) = User.email u.
Proof. by apply (user_setattr_proj User.email "email"). Qed.

Lemma user_setattr_username u attr v :
  attr ≠ "username" ->
  User.username (accounts_serializers.setattr u attr v) = User.username u.
Proof. by apply (user_setattr_proj User.username "username"). Qed.

Lemma user_setattr_password u attr v :
  attr ≠ "password" ->
  User.password (accounts_serializers.setattr u attr v) = User.password u.
Proof. by apply (user_setattr_proj User.password "password"). Qed.

Lemma user_foldl_setattr {B} (proj : User.t -> B) (name : string) u
    (d : DRF.ValidatedData) :
  (forall u attr v, attr ≠ name -> proj (accounts_serializers.setattr u attr v) = proj u) ->
  name ∉ d.*1 ->
  proj (foldl (fun u kv => accounts_serializers.setattr u kv.1 kv.2) u d) = proj u.
Proof.
  intros Hproj. revert u. induction d as [|[k v] d IH]; intros u Hname; simpl; [done|].
  rewrite IH; [|set_solver]. apply Hproj. set_solver.
Qed.

Lemma user_save_proj {B} (proj : User.t -> B) instance instance' db :
  unique_user_ids db -> instance ∈ users db ->
  User.id instance' = User.id instance -> proj instance' = proj instance ->
  proj <$> users (accounts_serializers.save instance' db) = proj <$> users db.
Proof.
  intros Hunique Hin Hid Hproj. unfold accounts_serializers.save. simpl.
  rewrite <- !list_fmap_compose.
  apply Forall_fmap_ext_1, Forall_forall. intros u Hu. simpl.
  case_bool_decide as Heq; [|done].
  rewrite Hproj. f_equal. symmetry. eapply (NoDup_fmap_eq User.id); eauto. congruence.
Qed.

Lemma user_save_others instance' db u :
  u ∈ users db -> User.id u ≠ User.id instance' ->
  u ∈ users (accounts_serializers.save instance' db).
Proof.
  intros Hu Hne. unfold accounts_serializers.save. simpl.
  apply list_elem_of_fmap. exists u. by rewrite bool_decide_eq_false_2.
Qed.

Lemma AdminUserUpdateSerializer_writable ext db instance :
  DRF._writable_fields (AdminUserUpdateSerializer.serializer ext db instance)
  = accounts_serializers.model_field ext db (Some instance)
      <$> ["first_name"; "last_name"; "role"; "is_active"].
Proof. reflexivity. Qed.

Lemma admin_get_object_inr db request_user pk instance :
  AdminUserDetailView.get_object db request_user pk = inr instance ->
  instance ∈ users db /\ User.id instance = pk.
Proof.
  unfold AdminUserDetailView.get_object.
  destruct (generics.get_object_or_404 _ _ _) as [exc|obj] eqn:E; [done|].
  apply get_object_or_404_inr in E as [Hin Hpk].
  destruct (permissions.check_object_permissions _ _ _); [done|].
  by intros [= <-].
Qed.

Lemma admin_update_cases partial ext db request pk :
  (exists exc, AdminUserDetailView.update partial ext db request pk
               = (exceptions.custom_exception_handler exc, db))
  \/ (exists request_user instance validated_data,
        user request = Some request_user
        /\ AdminUserDetailView.get_object db request_user pk = inr instance
        /\ DRF.to_internal_value ext partial
             (AdminUserUpdateSerializer.serializer ext db instance) (data request)
           = inr validated_data
        /\ AdminUserDetailView.update partial ext db request pk
           = (mkResponse HTTP_200_OK
                (Plain (UserData
                          (accounts_serializers.update instance validated_data db).1)),
              (accounts_serializers.update instance validated_data db).2)).
Proof.
  unfold AdminUserDetailView.update.
  match goal with |- context [generics.dispatch ?p ?r ?d ?h] =>
    destruct (dispatch_cases p r d h)
      as [[exc ->]|(request_user & result & Huser & Hhandler & ->)] end;
    [left; eauto|].
  destruct (AdminUserDetailView.get_object db request_user pk) as [exc|instance] eqn:Hget;
    [done|].
  destruct (DRF.to_internal_value _ _ _ _) as [errors|validated_data] eqn:Hvalid;
    [done|].
  right. exists request_user, instance, validated_data.
  repeat split; try done.
  destruct (accounts_serializers.update instance validated_data db).
  by injection Hhandler.
Qed.

Lemma admin_update_ignores partial ext db request pk (name : string) (v : Value) :
  name ∉ ["first_name"; "last_name"; "role"; "is_active"] ->
  AdminUserDetailView.update partial ext db
    (mkRequest (user request) (<[name := v]> (data request)) (query_params request)) pk
  = AdminUserDetailView.update partial ext db request pk.
Proof.
  intros Hname.
  unfold AdminUserDetailView.update, generics.dispatch. simpl.
  destruct (user request) as [request_user|]; [|done].
  destruct (bool_decide (User.role request_user = "admin")); simpl; [|done].
  destruct (AdminUserDetailView.get_object db request_user pk) as [exc|instance]; [done|].
  rewrite !to_internal_value_unfold, AdminUserUpdateSerializer_writable.
  unfold errors_of, values_of, DRF.field_outcome. simpl.
  rewrite !lookup_insert_ne; [done|set_solver..].
Qed.

(** C10.  An update of a user through the admin endpoint, full or partial
    and whatever its payload, leaves the primary key, the e-mail address,
    the user name and the password hash of every row of the users table as
    they were, and leaves the rows of all other users and the tasks table
    untouched: of the columns of a user only [first_name], [last_name],
    [role] and [is_active] can differ afterwards.  Members of the payload
    other than these four, [email] and [username] among them, are not read
    at all. *)
Theorem admin_update_frame (partial : bool) (ext : External) (db : DB)
    (request : Request) (pk : Z) :
  unique_user_ids db ->
  let result := AdminUserDetailView.update partial ext db request pk in
  User.id <$> users result.2 = User.id <$> users db
  /\ User.email <$> users result.2 = User.email <$> users db
  /\ User.username <$> users result.2 = User.username <$> users db
  /\ User.password <$> users result.2 = User.password <$> users db
  /\ tasks result.2 = tasks db
  /\ (forall u, u ∈ users db -> User.id u ≠ pk -> u ∈ users result.2)
  /\ (forall u,
        body result.1 = Plain (UserData u) ->
        exists u0, u0 ∈ users db /\ User.id u0 = pk
                   /\ User.id u = pk
                   /\ User.email u = User.email u0
                   /\ User.username u = User.username u0
                   /\ User.password u = User.password u0)
  /\ (forall (name : string) (v : Value),
        name ∉ ["first_name"; "last_name"; "role"; "is_active"] ->
        AdminUserDetailView.update partial ext db
          (mkRequest (user request) (<[name := v]> (data request))
             (query_params request)) pk
        = result).
Proof.
  intros Hunique result.
  assert (forall (name : string) (v : Value),
        name ∉ ["first_name"; "last_name"; "role"; "is_active"] ->
        AdminUserDetailView.update partial ext db
          (mkRequest (user request) (<[name := v]> (data request))
             (query_params request)) pk
        = result) as Hignore.
  { intros name v Hname. by apply admin_update_ignores. }
  subst result. revert Hignore.
  destruct (admin_update_cases partial ext db request pk)
    as [[exc Hexc]|(request_user & instance & validated_data & _ & Hget & Hvalid & Hok)].
  { rewrite Hexc. intros Hignore. repeat split; try done. intros u. by destruct exc. }
  rewrite Hok. intros Hignore.
  apply admin_get_object_inr in Hget as (Hin & Hpk).
  apply to_internal_value_keys in Hvalid.
  rewrite AdminUserUpdateSerializer_writable in Hvalid. simpl in Hvalid.
  unfold accounts_serializers.update in *. simpl in *.
  set (instance' :=
         foldl (fun u kv => accounts_serializers.setattr u kv.1 kv.2) instance
           validated_data) in *.
  assert (User.id instance' = User.id instance) as Hid.
  { apply (user_foldl_setattr User.id "id"); [apply user_setattr_id|set_solver]. }
  assert (User.email instance' = User.email instance) as Hemail.
  { apply (user_foldl_setattr User.email "email"); [apply user_setattr_email|set_solver]. }
  assert (User.username instance' = User.username instance) as Husername.
  { apply (user_foldl_setattr User.username "username");
      [apply user_setattr_username|set_solver]. }
  assert (User.password instance' = User.password instance) as Hpassword.
  { apply (user_foldl_setattr User.password "password");
      [apply user_setattr_password|set_solver]. }
  repeat split; try done.
  - by apply (user_save_proj User.id instance).
  - by apply (user_save_proj User.email instance).
  - by apply (user_save_proj User.username instance).
  - by apply (user_save_proj User.password instance).
  - intros u Hu Hne. apply user_save_others; [done|]. congruence.
  - intros u [= <-]. exists instance. repeat split; try done. congruence.
Qed.

Lemma admin_update_frame_witness :
  User.email
    <$> users (AdminUserDetailView.patch Sample.ext Sample.db
                 (Sample.request (Some Sample.root)
                    [("email", Str "mallory@example.com"); ("role", Str "admin")] []) 2).2
  = ["alice@example.com"; "bob@example.com"; "root@example.com"].
Proof.
  apply (admin_update_frame true Sample.ext Sample.db
           (Sample.request (Some Sample.root)
              [("email", Str "mallory@example.com"); ("role", Str "admin")] []) 2).
  unfold unique_user_ids. simpl. apply NoDup_ListNoDup. repeat constructor; set_solver.
Defined.

(** ** C3: ownership scoping of tasks *)

Lemma get_queryset_base db request_user query t :
  t ∈ TaskListCreateView.get_queryset db request_user query ->
  t ∈ base_queryset db request_user.
Proof.
  unfold TaskListCreateView.get_queryset.
  destruct (query !! "status") as [s|]; destruct (query !! "priority") as [p|];
    destruct (query !! "search") as [w|];
    repeat match goal with |- context [Str.truthy ?x] => destruct (Str.truthy x) end;
    rewrite ?list_elem_of_filter; tauto.
Qed.

Lemma foreign_task_not_found db request_user t :
  unique_task_ids db -> User.role request_user ≠ "admin" ->
  t ∈ tasks db -> Task.owner t ≠ User.id request_user ->
  TaskDetailView.get_object db request_user (Task.id t) = inl Http404.
Proof.
  intros Hunique Hrole Hin Hforeign.
  unfold TaskDetailView.get_object, TaskDetailView.get_queryset.
  destruct (generics.get_object_or_404 _ _ _) as [exc|row] eqn:E.
  - by apply get_object_or_404_inl in E as [-> _].
  - apply get_object_or_404_inr in E as [Hrow Hpk].
    apply base_queryset_elem in Hrow as [Hrow [Hadmin|Hown]]; [done|].
    assert (row = t) as -> by (eapply (NoDup_fmap_eq Task.id); eauto).
    done.
Qed.

Lemma admin_task_found db request_user t :
  unique_task_ids db -> User.role request_user = "admin" -> t ∈ tasks db ->
  TaskDetailView.get_object db request_user (Task.id t) = inr t.
Proof.
  intros Hunique Hrole Hin.
  unfold TaskDetailView.get_object, TaskDetailView.get_queryset, base_queryset.
  rewrite bool_decide_eq_true_2 by done.
  rewrite get_object_or_404_found by done.
  simpl. by rewrite bool_decide_eq_true_2.
Qed.

(** C3 as stated fails at the detail endpoint: a non-admin caller who
    addresses a task of another user is answered 404 (not found), not 403,
    for retrieve, update and delete alike, because the row is looked up in
    the caller's own tasks before the object permission is consulted. *)
Lemma foreign_task_detail_is_not_found :
  let request := Sample.request (Some Sample.alice) [("title", Str "Mine now")] [] in
  User.role Sample.alice ≠ "admin"
  /\ Sample.milk ∈ tasks Sample.db
  /\ Task.owner Sample.milk ≠ User.id Sample.alice
  /\ (TaskDetailView.get Sample.db request 2).1
     = mkResponse 404 (ErrorBody "NOT_FOUND" Http404)
  /\ (TaskDetailView.patch Sample.ext Sample.db request 2).1
     = mkResponse 404 (ErrorBody "NOT_FOUND" Http404)
  /\ (TaskDetailView.delete Sample.db request 2).1
     = mkResponse 404 (ErrorBody "NOT_FOUND" Http404)
  /\ status_code (TaskDetailView.get Sample.db request 2).1 ≠ 403.
Proof.
  repeat split; try done.
  unfold Sample.db. simpl. set_solver.
Qed.

(** C3, amended.  For a non-admin caller and a task owned by someone else,
    the task is in no task list the caller can obtain, whatever the
    filters; the ownership policy [IsOwnerOrAdmin] denies the object; and
    retrieve, update and delete addressed to the task are answered 404 (not
    found) and change nothing.  For an admin caller the base set of the
    task list is the whole tasks table, [IsOwnerOrAdmin] allows every
    object, and every task can be retrieved. *)
Theorem task_ownership_scoping (ext : External) (db : DB) (request_user : User.t) :
  (User.role request_user ≠ "admin" ->
   forall t,
     t ∈ tasks db -> Task.owner t ≠ User.id request_user ->
     (forall query, t ∉ TaskListCreateView.get_queryset db request_user query)
     /\ permissions.has_object_permission permissions.IsOwnerOrAdmin request_user
          (permissions.WithOwner t) = false
     /\ (unique_task_ids db ->
         forall payload query partial,
           let request := mkRequest (Some request_user) payload query in
           let not_found := (mkResponse 404 (ErrorBody "NOT_FOUND" Http404), db) in
           TaskDetailView.get db request (Task.id t) = not_found
           /\ TaskDetailView.update partial ext db request (Task.id t) = not_found
           /\ TaskDetailView.delete db request (Task.id t) = not_found))
  /\ (User.role request_user = "admin" ->
      base_queryset db request_user = tasks db
      /\ TaskListCreateView.get_queryset db request_user ∅ = tasks db
      /\ (forall obj,
            permissions.has_object_permission permissions.IsOwnerOrAdmin request_user obj
            = true)
      /\ (unique_task_ids db ->
          forall t payload query,
            t ∈ tasks db ->
            TaskDetailView.get db (mkRequest (Some request_user) payload query) (Task.id t)
            = (mkResponse 200 (Plain (TaskData t)), db))).
Proof.
  split.
  - intros Hrole t Hin Hforeign. repeat split.
    + intros query Hlisted%get_queryset_base.
      apply base_queryset_elem in Hlisted as [_ [Hadmin|Hown]]; done.
    + simpl. rewrite bool_decide_eq_false_2 by done. by apply bool_decide_eq_false_2.
    + unfold TaskDetailView.get.
      rewrite (dispatch_authenticated _ _ _ _ request_user) by done.
      by rewrite foreign_task_not_found.
    + unfold TaskDetailView.update.
      rewrite (dispatch_authenticated _ _ _ _ request_user) by done.
      by rewrite foreign_task_not_found.
    + unfold TaskDetailView.delete.
      rewrite (dispatch_authenticated _ _ _ _ request_user) by done.
      by rewrite foreign_task_not_found.
  - intros Hrole.
    assert (base_queryset db request_user = tasks db) as Hbase.
    { unfold base_queryset. by rewrite bool_decide_eq_true_2. }
    split; [done|]. split; [|split].
    + unfold TaskListCreateView.get_queryset. rewrite Hbase.
      by rewrite !(lookup_empty (M:=gmap string)).
    + intros obj. simpl. by rewrite bool_decide_eq_true_2.
    + intros Hunique t payload query Hin. unfold TaskDetailView.get.
      rewrite (dispatch_authenticated _ _ _ _ request_user) by done.
      by rewrite admin_task_found.
Qed.

Lemma task_ownership_scoping_witness :
  ((forall query, Sample.milk ∉ TaskListCreateView.get_queryset Sample.db Sample.alice query)
   /\ permissions.has_object_permission permissions.IsOwnerOrAdmin Sample.alice
        (permissions.WithOwner Sample.milk) = false)
  /\ TaskListCreateView.get_queryset Sample.db Sample.root ∅ = tasks Sample.db.
Proof.
  assert (unique_task_ids Sample.db) as Hunique.
  { unfold unique_task_ids. simpl. apply NoDup_ListNoDup. repeat constructor; set_solver. }
  destruct (task_ownership_scoping Sample.ext Sample.db Sample.alice) as [Hforeign _].
  destruct (task_ownership_scoping Sample.ext Sample.db Sample.root) as [_ Hadmin].
  destruct (Hforeign ltac:(done) Sample.milk) as (Hlist & Hdeny & _);
    [unfold Sample.db; simpl; set_solver|done|].
  destruct (Hadmin eq_refl) as (_ & Hall & _).
  done.
Defined.

(** ** C5: the filters of the task list *)

Lemma app_String c s t : String c s +:+ t = String c (s +:+ t).
Proof. reflexivity. Qed.

Lemma prefix_spec n h : String.prefix n h = true <-> exists post, h = n +:+ post.
Proof.
  revert n. induction h as [|b h IH]; intros [|a n]; simpl.
  - split; [by exists ""|done].
  - split; [done|]. intros [post Hpost]. by rewrite app_String in Hpost.
  - split; [by eexists|done].
  - destruct (ascii_dec a b) as [->|Hne].
    + rewrite IH. split; intros [post Hpost]; exists post;
        rewrite app_String in *; congruence.
    + split; [done|]. intros [post Hpost]. rewrite app_String in Hpost. congruence.
Qed.

Lemma contains_spec n h : Str.contains n h = true <-> substring n h.
Proof.
  unfold substring. induction h as [|b h IH].
  - change (Str.contains n "") with (String.prefix n "" || false).
    rewrite orb_false_r, prefix_spec. split.
    + intros [post ->]. by exists "", post.
    + intros ([|c pre] & post & Heq); [by exists post|].
      by rewrite app_String in Heq.
  - change (Str.contains n (String b h))
      with (String.prefix n (String b h) || Str.contains n h).
    rewrite orb_true_iff, prefix_spec, IH. split.
    + intros [[post ->]|(pre & post & ->)]; [by exists "", post|].
      by exists (String b pre), post.
    + intros ([|c pre] & post & Heq); [left; by exists post|].
      right. rewrite app_String in Heq. injection Heq as -> ->. by exists pre, post.
Qed.

Lemma icontains_spec hay needle :
  Str.icontains hay needle = true <-> substring (Str.lower needle) (Str.lower hay).
Proof. apply contains_spec. Qed.

Lemma icontains_empty hay : Str.icontains hay "" = true.
Proof. apply icontains_spec. by exists "", (Str.lower hay). Qed.

Lemma search_matches_hit w t :
  TaskListCreateView.search_matches w t = true <-> search_hit w t.
Proof.
  unfold TaskListCreateView.search_matches, search_hit.
  rewrite orb_true_iff. destruct (Task.description t); intuition congruence.
Qed.

Lemma filter_all {A} (P : A -> Prop) `{!forall x, Decision (P x)} (l : list A) :
  (forall x, P x) -> filter P l = l.
Proof.
  intros HP. induction l as [|x l IH]; [done|].
  by rewrite filter_cons_True, IH.
Qed.

Lemma truthy_empty s : Str.truthy s = false <-> s = "".
Proof. by destruct s. Qed.

Lemma filter_when_supplied (o : option string) (P : string -> Task.t -> Prop)
    `{!forall s t, Decision (P s t)} (l : list Task.t) :
  match o with
  | Some s => if Str.truthy s then filter (P s) l else l
  | None => l
  end
  = filter (fun t => when_supplied o (fun s => P s t)) l.
Proof.
  destruct o as [s|].
  - destruct (Str.truthy s) eqn:Hs.
    + apply list_filter_iff. intros t. unfold when_supplied. split.
      * by intros HP s' [= <-].
      * intros Hall. apply Hall; [done|]. intros ->. done.
    + apply truthy_empty in Hs as ->. symmetry. apply filter_all.
      by intros t s [= <-].
  - symmetry. apply filter_all. by intros t s.
Qed.

Lemma get_queryset_filter db request_user query :
  TaskListCreateView.get_queryset db request_user query
  = filter (matches query) (base_queryset db request_user).
Proof.
  unfold TaskListCreateView.get_queryset.
  rewrite (filter_when_supplied (query !! "status") (fun s t => Task.status t = s)).
  rewrite (filter_when_supplied (query !! "priority") (fun p t => Task.priority t = p)).
  rewrite (filter_when_supplied (query !! "search")
             (fun w t => TaskListCreateView.search_matches w t = true)).
  rewrite !list_filter_filter. apply list_filter_iff. intros t.
  unfold matches, when_supplied. setoid_rewrite search_matches_hit. tauto.
Qed.

(** C5 as stated fails for a filter that is supplied with an empty value:
    [?status=] constrains nothing, so the caller's pending task is listed
    although its status is not the supplied (empty) one. *)
Lemma empty_status_filter_is_ignored :
  let query : gmap string string := {[ "status" := "" ]} in
  TaskListCreateView.get_queryset Sample.db Sample.bob query = [Sample.milk]
  /\ query !! "status" = Some ""
  /\ Task.status Sample.milk ≠ ""
  /\ ~ spec_matches query Sample.milk.
Proof.
  repeat split; try done.
  intros (Hstatus & _). by specialize (Hstatus "" eq_refl).
Qed.

(** C5, amended.  The task list of a caller is exactly the caller's
    role-scoped base set (all tasks for an admin, the caller's own tasks
    otherwise) filtered, in store order, by the conjunction of the filters
    that are supplied with a non-empty value: [status] and [priority] by
    equality, [search] by a case-insensitive substring test on the title or
    the description.  A filter that is omitted, or supplied empty, imposes
    no constraint (for [search] the empty text matches every task anyway). *)
Theorem task_list_filters (db : DB) (request_user : User.t)
    (query : gmap string string) :
  TaskListCreateView.get_queryset db request_user query
  = filter (matches query) (base_queryset db request_user)
  /\ (forall t,
        t ∈ TaskListCreateView.get_queryset db request_user query
        <-> t ∈ base_queryset db request_user /\ matches query t)
  /\ (forall t,
        t ∈ base_queryset db request_user
        <-> t ∈ tasks db
            /\ (User.role request_user = "admin"
                \/ Task.owner t = User.id request_user))
  /\ (forall hay needle,
        Str.icontains hay needle = true
        <-> substring (Str.lower needle) (Str.lower hay))
  /\ (forall t, search_hit "" t)
  /\ (forall t, (forall name, query !! name = None \/ query !! name = Some "") ->
                matches query t)
  /\ (forall payload,
        TaskListCreateView.get db (mkRequest (Some request_user) payload query)
        = (mkResponse 200
             (Plain (TaskListData
                       (filter (matches query) (base_queryset db request_user)))),
           db)).
Proof.
  pose proof (get_queryset_filter db request_user query) as Hfilter.
  split_and!.
  - done.
  - intros t. rewrite Hfilter, list_elem_of_filter. tauto.
  - intros t. apply base_queryset_elem.
  - intros hay needle. apply icontains_spec.
  - intros t. left. apply icontains_empty.
  - intros t Hquery. unfold matches, when_supplied.
    split_and!; intros s Hs Hne;
      match goal with H : query !! ?name = Some s |- _ =>
        destruct (Hquery name) end; congruence.
  - intros payload. unfold TaskListCreateView.get.
    rewrite (dispatch_authenticated _ _ _ _ request_user) by done.
    simpl. by rewrite Hfilter.
Qed.

Lemma task_list_filters_witness :
  TaskListCreateView.get_queryset Sample.db Sample.root
    (list_to_map [("status", "pending"); ("search", "SHOP")])
  = [Sample.milk].
Proof.
  rewrite (proj1 (task_list_filters Sample.db Sample.root
                    (list_to_map [("status", "pending"); ("search", "SHOP")]))).
  vm_compute. reflexivity.
Defined.

(** ** C7: task statistics *)

Lemma count_filter s (ts : list Task.t) :
  TaskStatsView.count (filter (fun t => Task.status t = s) ts) = count_status s ts.
Proof.
  unfold TaskStatsView.count, count_status.
  induction ts as [|t ts IH]; [done|].
  rewrite filter_cons, fmap_cons. cbn [count_of]. case_decide.
  - rewrite bool_decide_eq_true_2 by done. cbn [length].
    rewrite Nat2Z.inj_succ, IH. lia.
  - rewrite bool_decide_eq_false_2 by done. rewrite IH. lia.
Qed.

Lemma count_of_Permutation s (l l' : list string) :
  l ≡ₚ l' -> count_of s l = count_of s l'.
Proof. induction 1; simpl; lia. Qed.

Lemma count_of_total (l : list string) :
  Forall (fun s => s ∈ STATUSES) l ->
  Z.of_nat (length l)
  = count_of "pending" l + count_of "in_progress" l + count_of "completed" l
    + count_of "cancelled" l.
Proof.
  induction 1 as [|s l Hs Hl IH]; [done|].
  simpl length. rewrite Nat2Z.inj_succ, IH. simpl.
  each_status Hs; simpl; lia.
Qed.

(** C7.  The statistics view answers an authenticated caller with the
    counts over the caller's role-scoped tasks (all tasks for an admin, the
    caller's own otherwise): [total] is their number and each named count
    is the number of them with exactly that status, so that the four named
    counts add up to [total] when every status is one of the four states.
    A user whose own tasks are three pending and one completed, in any
    order and whatever other users own, is answered
    [{total: 4, pending: 3, in_progress: 0, completed: 1, cancelled: 0}]. *)
Theorem task_stats_counts (db : DB) (request_user : User.t) (payload : Payload)
    (query : gmap string string) :
  let visible := base_queryset db request_user in
  let request := mkRequest (Some request_user) payload query in
  TaskStatsView.get db request
  = (mkResponse 200
       (Envelope true None
          (StatsData
             (mkStats (Z.of_nat (length visible))
                (count_status "pending" visible)
                (count_status "in_progress" visible)
                (count_status "completed" visible)
                (count_status "cancelled" visible))) []),
     db)
  /\ (forall t,
        t ∈ visible
        <-> t ∈ tasks db
            /\ (User.role request_user = "admin"
                \/ Task.owner t = User.id request_user))
  /\ (Forall (fun t => Task.status t ∈ STATUSES) visible ->
      Z.of_nat (length visible)
      = count_status "pending" visible + count_status "in_progress" visible
        + count_status "completed" visible + count_status "cancelled" visible)
  /\ (User.role request_user ≠ "admin" ->
      Task.status <$> filter (fun t => Task.owner t = User.id request_user) (tasks db)
      ≡ₚ ["pending"; "pending"; "pending"; "completed"] ->
      body (TaskStatsView.get db request).1
      = Envelope true None (StatsData (mkStats 4 3 0 1 0)) []).
Proof.
  intros visible request.
  assert (TaskStatsView.get db request
          = (mkResponse 200
               (Envelope true None
                  (StatsData
                     (mkStats (Z.of_nat (length visible))
                        (count_status "pending" visible)
                        (count_status "in_progress" visible)
                        (count_status "completed" visible)
                        (count_status "cancelled" visible))) []),
             db)) as Hget.
  { unfold TaskStatsView.get.
    rewrite (dispatch_authenticated _ _ _ _ request_user) by done.
    by rewrite !count_filter. }
  split_and!.
  - done.
  - intros t. apply base_queryset_elem.
  - intros Hstatuses. unfold count_status. rewrite <- count_of_total.
    + by rewrite length_fmap.
    + by apply Forall_fmap.
  - intros Hrole Hown. rewrite Hget. simpl.
    assert (visible = filter (fun t => Task.owner t = User.id request_user) (tasks db))
      as Hvisible.
    { unfold visible, base_queryset. by rewrite bool_decide_eq_false_2. }
    unfold count_status. rewrite <- (length_fmap Task.status visible).
    rewrite Hvisible, !(count_of_Permutation _ _ _ Hown).
    by rewrite (Permutation_length Hown).
Qed.

Lemma task_stats_counts_witness :
  body (TaskStatsView.get
          (mkDB [Sample.alice; Sample.bob]
             [Task.mk 1 "Plan" None "pending" "low" None 1;
              Sample.milk;
              Task.mk 3 "Draft" None "completed" "high" None 1;
              Task.mk 4 "Review" None "pending" "medium" None 1;
              Task.mk 5 "Ship" None "pending" "medium" None 1] [] 2 5)
          (mkRequest (Some Sample.alice) ∅ ∅)).1
  = Envelope true None (StatsData (mkStats 4 3 0 1 0)) [].
Proof.
  eapply task_stats_counts; [done|].
  vm_compute. apply perm_skip.
  apply (Permutation_cons_append ["pending"; "pending"] "completed").
Defined.

(** ** C8: deleting users as an administrator *)

Lemma admin_permissions request_user :
  User.role request_user = "admin" ->
  permissions.check_permissions AdminUserDetailView.permission_classes (Some request_user)
  = None.
Proof. intros Hrole. simpl. by rewrite bool_decide_eq_true_2. Qed.

Lemma admin_get_object_found db request_user row :
  unique_user_ids db -> row ∈ users db ->
  AdminUserDetailView.get_object db request_user (User.id row) = inr row.
Proof.
  intros Hunique Hrow. unfold AdminUserDetailView.get_object.
  by rewrite get_object_or_404_found.
Qed.

(** C8.  For a caller whose role is [admin]: a delete request addressed to
    the caller's own account is answered 400 with the message "You cannot
    delete your own account" and the database is left as it was, so the
    account remains; a delete request addressed to any other existing user
    is answered 204, after which that user is gone, every other user is
    still there, and the tasks of the deleted user are gone with it. *)
Theorem admin_delete_user (db : DB) (admin : User.t) (payload : Payload)
    (query : gmap string string) :
  User.role admin = "admin" ->
  let request := mkRequest (Some admin) payload query in
  ((exists row, row ∈ users db /\ User.id row = User.id admin) ->
   AdminUserDetailView.delete db request (User.id admin)
   = (mkResponse 400
        (Envelope false (Some "You cannot delete your own account") NoData []),
      db))
  /\ (unique_user_ids db ->
      forall target,
        target ∈ users db -> User.id target ≠ User.id admin ->
        let result := AdminUserDetailView.delete db request (User.id target) in
        result.1 = mkResponse 204 (Plain NoData)
        /\ (forall u, u ∈ users result.2
                      <-> u ∈ users db /\ User.id u ≠ User.id target)
        /\ (forall t, t ∈ tasks result.2
                      <-> t ∈ tasks db /\ Task.owner t ≠ User.id target)
        /\ blacklist result.2 = blacklist db).
Proof.
  intros Hrole request. split.
  - intros (row & Hrow & Hid). unfold AdminUserDetailView.delete.
    rewrite (dispatch_authenticated _ _ _ _ admin) by (by try apply admin_permissions).
    unfold AdminUserDetailView.get_object.
    destruct (generics.get_object_or_404 User.id (users db) (User.id admin))
      as [exc|found] eqn:E.
    + apply get_object_or_404_inl in E as [_ E]. by destruct (E row Hrow).
    + apply get_object_or_404_inr in E as [_ E]. simpl.
      unfold User.eqb. by rewrite bool_decide_eq_true_2.
  - intros Hunique target Htarget Hother result. subst result.
    unfold AdminUserDetailView.delete.
    rewrite (dispatch_authenticated _ _ _ _ admin) by (by try apply admin_permissions).
    rewrite admin_get_object_found by done.
    unfold User.eqb. rewrite bool_decide_eq_false_2 by done.
    simpl. split_and!; try done.
    + intros u. rewrite list_elem_of_filter. tauto.
    + intros t. rewrite list_elem_of_filter. tauto.
Qed.

Lemma admin_delete_user_witness :
  AdminUserDetailView.delete Sample.db (mkRequest (Some Sample.root) ∅ ∅) 3
  = (mkResponse 400
       (Envelope false (Some "You cannot delete your own account") NoData []),
     Sample.db)
  /\ (AdminUserDetailView.delete Sample.db (mkRequest (Some Sample.root) ∅ ∅) 2).1
     = mkResponse 204 (Plain NoData).
Proof.
  destruct (admin_delete_user Sample.db Sample.root ∅ ∅ eq_refl) as [Hself Hother].
  split.
  - apply Hself. exists Sample.root. split; [|done].
    unfold Sample.db. simpl. set_solver.
  - apply (Hother ltac:(unfold unique_user_ids; simpl; apply NoDup_ListNoDup;
                        repeat constructor; set_solver) Sample.bob);
      [unfold Sample.db; simpl; set_solver|done].
Defined.

(** ** C9: logout *)





(** * Further properties of the code *)

Import tasks_admin_views accounts_more.

(** ** Trimming *)






Lemma values_of_item ext partial s data fs name v :
  (name, v) ∈ values_of ext partial s data fs ->
  exists f, f ∈ fs /\ DRF.field_name f = name
            /\ DRF.field_outcome ext partial s data f = DRF.Ok v.
Proof.
  unfold values_of. intros (f & Hf & Hout)%list_elem_of_omap.
  exists f. destruct (DRF.field_outcome ext partial s data f); naive_solver.
Qed.

Lemma to_internal_value_items ext partial s data validated_data name v :
  DRF.to_internal_value ext partial s data = inr validated_data ->
  (name, v) ∈ validated_data ->
  exists f, f ∈ DRF._writable_fields s /\ DRF.field_name f = name
            /\ DRF.field_outcome ext partial s data f = DRF.Ok v.
Proof.
  rewrite to_internal_value_unfold.
  destruct (errors_of _ _ _ _ _); [|done]. intros [= <-]. apply values_of_item.
Qed.

(** ** Titles *)





(** ** Validity of the stored tasks *)





Lemma choice_outcome ext partial f choices data v :
  DRF.field_type f = DRF.ChoiceField choices -> DRF.allow_null f = false ->
  DRF.run_validation ext partial f data = DRF.Ok v ->
  exists s, v = Str s /\ s ∈ choices.
Proof.
  intros Htype Hnull. unfold DRF.run_validation, DRF.field_to_internal.
  rewrite Htype, Hnull.
  destruct data as [[s|n|b|]|]; try done;
    try (destruct partial; [done|]; by destruct (DRF.required f));
    case_bool_decide; try done; intros [= <-]; eauto.
Qed.






Lemma task_post_cases ext db request :
  (TaskListCreateView.post ext db request).2 = db
  \/ exists request_user validated_data task db',
       DRF.to_internal_value ext false (TaskCreateSerializer.serializer db) (data request)
       = inr validated_data
       /\ user request = Some request_user
       /\ TaskCreateSerializer.create request_user validated_data db = Some (task, db')
       /\ TaskListCreateView.post ext db request
          = (mkResponse HTTP_201_CREATED
               (Envelope true (Some "Task created successfully") (TaskData task) []),
             db').
Proof.
  unfold TaskListCreateView.post.
  match goal with |- context [generics.dispatch ?p ?r ?d ?h] =>
    destruct (dispatch_cases p r d h)
      as [[exc ->]|(request_user & result & Huser & Hhandler & ->)] end;
    [by left|].
  destruct (DRF.to_internal_value _ _ _ _) as [errors|validated_data] eqn:Hvalid.
  { left. by injection Hhandler as <-. }
  destruct (TaskCreateSerializer.create request_user validated_data db)
    as [[task db']|] eqn:Hcreate; [|done].
  right. exists request_user, validated_data, task, db'. by injection Hhandler as <-.
Qed.

Lemma task_create_row request_user (validated_data : DRF.ValidatedData) db task db' :
  "owner" ∉ validated_data.*1 ->
  TaskCreateSerializer.create request_user validated_data db = Some (task, db') ->
  task
  = tasks_serializers.setattr
      (foldl (fun t kv => tasks_serializers.setattr t kv.1 kv.2)
         (Task.mk (task_seq db + 1) "" None Task.default_status Task.default_priority
            None (User.id request_user))
         validated_data)
      "owner" (Num (User.id request_user))
  /\ db' = mkDB (users db) (tasks db ++ [task]) (blacklist db) (user_seq db)
             (task_seq db + 1).
Proof.
  intros Hfresh. unfold TaskCreateSerializer.create, model_create.
  rewrite set_item_fresh, get_app_fresh by done.
  rewrite foldl_app. simpl. by intros [= <- <-].
Qed.




(** ** The status machine as a graph *)

Lemma cancelled_next x :
  TaskSerializer.validate_status (Some (Task.mk 0 "" None "cancelled" "" None 0)) x
  = if bool_decide (x = "cancelled" \/ x = "pending")
    then DRF.Valid x
    else DRF.Invalid [transition_message "cancelled" x].
Proof.
  unfold TaskSerializer.validate_status. simpl.
  change (TaskSerializer.allowed_transitions !! "cancelled") with (Some ["pending"]).
  simpl. repeat case_bool_decide; try done; set_solver.
Qed.

(** X3.  The status machine has no dead end.  From each of the four states
    an update to [pending] is accepted, and from each state every state is
    reached by a chain of at most three accepted updates.  Three are needed:
    a cancelled task cannot be completed by one update nor by two, whatever
    the intermediate status. *)
Theorem status_machine_connected (from to : string) :
  from ∈ STATUSES -> to ∈ STATUSES ->
  accepted_path from ["pending"] = true
  /\ (exists path,
        (length path <= 3)%nat /\ last (from :: path) = Some to
        /\ accepted_path from path = true)
  /\ accepted_path "cancelled" ["completed"] = false
  /\ (forall x, accepted_path "cancelled" [x; "completed"] = false).
Proof.
  intros Hfrom Hto. split_and!.
  - each_status Hfrom; reflexivity.
  - each_status Hfrom; each_status Hto;
      first
        [ exists []; split_and!; [simpl; lia|reflexivity|reflexivity]
        | eexists [_]; split_and!; [simpl; lia|reflexivity|reflexivity]
        | eexists ["pending"; _]; split_and!; [simpl; lia|reflexivity|reflexivity]
        | exists ["pending"; "in_progress"; "completed"];
          split_and!; [simpl; lia|reflexivity|reflexivity] ].
  - reflexivity.
  - intros x. unfold accepted_path. rewrite cancelled_next.
    case_bool_decide as Hx; [|done]. destruct Hx as [->| ->]; reflexivity.
Qed.

Lemma status_machine_connected_witness :
  exists path,
    (length path <= 3)%nat /\ last ("cancelled" :: path) = Some "completed"
    /\ accepted_path "cancelled" path = true.
Proof.
  apply (status_machine_connected "cancelled" "completed");
    unfold STATUSES; simpl; set_solver.
Defined.

(** ** Reading back what was written *)

Lemma base_queryset_NoDup db request_user :
  unique_task_ids db -> NoDup (Task.id <$> base_queryset db request_user).
Proof.
  intros Hunique. unfold base_queryset. case_bool_decide; [done|].
  eapply sublist_NoDup; [exact Hunique|]. apply fmap_sublist, sublist_filter.
Qed.

Lemma task_get_object_found db request_user t :
  unique_task_ids db -> t ∈ tasks db ->
  User.role request_user = "admin" \/ Task.owner t = User.id request_user ->
  TaskDetailView.get_object db request_user (Task.id t) = inr t.
Proof.
  intros Hunique Hin Hsee.
  unfold TaskDetailView.get_object, TaskDetailView.get_queryset.
  rewrite get_object_or_404_found;
    [|by apply base_queryset_NoDup|by apply base_queryset_elem].
  simpl. destruct Hsee as [Hadmin|Hown].
  - by rewrite bool_decide_eq_true_2.
  - case_bool_decide; [done|]. by rewrite bool_decide_eq_true_2.
Qed.

Lemma task_get_object_missing db request_user pk :
  (forall t, t ∈ tasks db -> Task.id t ≠ pk) ->
  TaskDetailView.get_object db request_user pk = inl Http404.
Proof.
  intros Hmissing. unfold TaskDetailView.get_object, TaskDetailView.get_queryset.
  destruct (generics.get_object_or_404 _ _ _) as [exc|row] eqn:E.
  - by apply get_object_or_404_inl in E as [-> _].
  - apply get_object_or_404_inr in E as [Hrow Hpk].
    apply base_queryset_elem in Hrow as [Hrow _]. by destruct (Hmissing row Hrow).
Qed.

(** X4.  What an update of a task answers is what a later retrieve of the
    same task by the same caller answers: after a successful update (200)
    the retrieve returns the updated task unchanged; the update leaves all
    other tasks as they were and neither adds nor removes a row. *)
Theorem task_update_then_retrieve (partial : bool) (ext : External) (db : DB)
    (request_user : User.t) (payload : Payload) (query : gmap string string)
    (pk : Z) (updated : Task.t) :
  unique_task_ids db ->
  let request := mkRequest (Some request_user) payload query in
  let result := TaskDetailView.update partial ext db request pk in
  result.1 = mkResponse 200 (Plain (TaskData updated)) ->
  TaskDetailView.get result.2 request pk
  = (mkResponse 200 (Plain (TaskData updated)), result.2)
  /\ updated ∈ tasks result.2
  /\ (forall t, t ∈ tasks db -> Task.id t ≠ pk -> t ∈ tasks result.2)
  /\ length (tasks result.2) = length (tasks db)
  /\ users result.2 = users db.
Proof.
  intros Hunique request result. subst result.
  destruct (task_update_cases partial ext db request pk)
    as [[exc ->]|(u & instance & validated_data & Huser & Hget & Hvalid & ->)].
  { by destruct exc. }
  injection Huser as <-. simpl. intros [= <-].
  apply task_get_object_inr in Hget as (Hin & Hpk & Hsee).
  apply task_update_keys in Hvalid.
  destruct (task_update_row instance validated_data db Hvalid) as [Howner Hid].
  unfold tasks_serializers.update in *. simpl in *.
  set (instance' :=
         foldl (fun t kv => tasks_serializers.setattr t kv.1 kv.2) instance
           validated_data) in *.
  destruct (task_save_owners instance instance' db Hunique Hin Hid Howner)
    as [_ Hids].
  assert (instance' ∈ tasks (tasks_serializers.save instance' db)) as Hin'.
  { unfold tasks_serializers.save. simpl. apply list_elem_of_fmap.
    exists instance. by rewrite bool_decide_eq_true_2. }
  split_and!; try done.
  - unfold TaskDetailView.get.
    rewrite (dispatch_authenticated _ _ _ _ request_user) by done.
    rewrite <- Hpk, <- Hid.
    rewrite task_get_object_found; [done| |done|].
    + unfold unique_task_ids. by rewrite Hids.
    + rewrite Howner. done.
  - intros t Ht Hne. unfold tasks_serializers.save. simpl. apply list_elem_of_fmap.
    exists t. rewrite bool_decide_eq_false_2; [done|]. congruence.
  - unfold tasks_serializers.save. simpl. by rewrite length_fmap.
Qed.

Lemma task_update_then_retrieve_witness :
  TaskDetailView.get
    (TaskDetailView.patch Sample.ext Sample.db
       (mkRequest (Some Sample.bob) {[ "status" := Str "in_progress" ]} ∅) 2).2
    (mkRequest (Some Sample.bob) {[ "status" := Str "in_progress" ]} ∅) 2
  = (mkResponse 200
       (Plain (TaskData (Task.mk 2 "Buy milk" (Some "at the Shop") "in_progress" "low"
                           None 2))),
     (TaskDetailView.patch Sample.ext Sample.db
        (mkRequest (Some Sample.bob) {[ "status" := Str "in_progress" ]} ∅) 2).2).
Proof.
  apply (task_update_then_retrieve true Sample.ext Sample.db Sample.bob
           {[ "status" := Str "in_progress" ]} ∅ 2).
  - unfold unique_task_ids. simpl. apply NoDup_ListNoDup. repeat constructor; set_solver.
  - vm_compute. reflexivity.
Defined.

(** X5.  The owner of a task can retrieve it and delete it: the retrieve is
    answered 200 with the stored task; the delete is answered 204 and
    removes that task and no other, leaves the users table alone, and a
    later retrieve of the task is answered 404. *)
Theorem own_task_delete (db : DB) (request_user : User.t) (payload : Payload)
    (query : gmap string string) (t : Task.t) :
  unique_task_ids db -> t ∈ tasks db -> Task.owner t = User.id request_user ->
  let request := mkRequest (Some request_user) payload query in
  let result := TaskDetailView.delete db request (Task.id t) in
  TaskDetailView.get db request (Task.id t) = (mkResponse 200 (Plain (TaskData t)), db)
  /\ result.1 = mkResponse 204 (Plain NoData)
  /\ (forall t', t' ∈ tasks result.2 <-> t' ∈ tasks db /\ t' ≠ t)
  /\ users result.2 = users db
  /\ TaskDetailView.get result.2 request (Task.id t)
     = (mkResponse 404 (ErrorBody "NOT_FOUND" Http404), result.2).
Proof.
  intros Hunique Hin Hown request result.
  assert (TaskDetailView.get_object db request_user (Task.id t) = inr t) as Hget.
  { apply task_get_object_found; try done. by right. }
  assert (result = (mkResponse 204 (Plain NoData),
                    set_tasks (filter (fun t' => Task.id t' ≠ Task.id t) (tasks db)) db))
    as ->.
  { subst result. unfold TaskDetailView.delete.
    rewrite (dispatch_authenticated _ _ _ _ request_user) by done. by rewrite Hget. }
  simpl. split_and!; try done.
  - unfold TaskDetailView.get.
    rewrite (dispatch_authenticated _ _ _ _ request_user) by done. by rewrite Hget.
  - intros t'. rewrite list_elem_of_filter. split.
    + intros [Hne Hin']. split; [done|]. congruence.
    + intros [Hin' Hne]. split; [|done]. intros Heq. apply Hne.
      by eapply (NoDup_fmap_eq Task.id).
  - unfold TaskDetailView.get.
    rewrite (dispatch_authenticated _ _ _ _ request_user) by done.
    rewrite task_get_object_missing; [done|].
    simpl. by intros t' [Hne _]%list_elem_of_filter.
Qed.

Lemma own_task_delete_witness :
  (TaskDetailView.delete Sample.db (mkRequest (Some Sample.bob) ∅ ∅) 2).1
  = mkResponse 204 (Plain NoData).
Proof.
  apply (own_task_delete Sample.db Sample.bob ∅ ∅ Sample.milk).
  - unfold unique_task_ids. simpl. apply NoDup_ListNoDup. repeat constructor; set_solver.
  - unfold Sample.db. simpl. set_solver.
  - reflexivity.
Defined.

(** ** The admin task endpoints and the authentication gate *)

Lemma admin_only_refused permission_classes request db handler request_user :
  permission_classes = [permissions.IsAuthenticated; permissions.IsAdminUser] ->
  user request = Some request_user -> User.role request_user ≠ "admin" ->
  generics.dispatch permission_classes request db handler
  = (mkResponse 403
       (ErrorBody "FORBIDDEN"
          (PermissionDenied "You must be an admin to perform this action.")),
     db).
Proof.
  intros -> Huser Hrole. unfold generics.dispatch. rewrite Huser. simpl.
  by rewrite bool_decide_eq_false_2.
Qed.

(** X6.  The admin task endpoints serve admins only.  A caller whose role
    is not [admin] is answered 403 by the list and by the delete, and
    nothing changes.  For an admin the list is the whole tasks table; the
    delete of a task that does not exist is answered 404; the delete of an
    existing task is answered 200 "Task deleted successfully" and removes
    that task and no other. *)
Theorem admin_task_endpoints (db : DB) (request_user : User.t) (payload : Payload)
    (query : gmap string string) :
  let request := mkRequest (Some request_user) payload query in
  let forbidden :=
    mkResponse 403
      (ErrorBody "FORBIDDEN"
         (PermissionDenied "You must be an admin to perform this action.")) in
  (User.role request_user ≠ "admin" ->
   AdminTaskListView.get db request = (forbidden, db)
   /\ forall pk, AdminTaskDeleteView.delete db request pk = (forbidden, db))
  /\ (User.role request_user = "admin" ->
      AdminTaskListView.get db request
      = (mkResponse 200 (Plain (TaskListData (tasks db))), db)
      /\ (forall pk,
            (forall t, t ∈ tasks db -> Task.id t ≠ pk) ->
            AdminTaskDeleteView.delete db request pk
            = (mkResponse 404 (ErrorBody "NOT_FOUND" Http404), db))
      /\ (unique_task_ids db ->
          forall t,
            t ∈ tasks db ->
            let result := AdminTaskDeleteView.delete db request (Task.id t) in
            result.1
            = mkResponse 200 (Envelope true (Some "Task deleted successfully") NoData [])
            /\ (forall t', t' ∈ tasks result.2 <-> t' ∈ tasks db /\ t' ≠ t)
            /\ users result.2 = users db)).
Proof.
  intros request forbidden. split.
  - intros Hrole. split; [|intros pk];
      by apply (admin_only_refused _ _ _ _ request_user).
  - intros Hrole.
    assert (permissions.check_permissions
              [permissions.IsAuthenticated; permissions.IsAdminUser]
              (Some request_user) = None) as Hperm.
    { simpl. by rewrite bool_decide_eq_true_2. }
    split_and!.
    + unfold AdminTaskListView.get.
      by rewrite (dispatch_authenticated _ _ _ _ request_user).
    + intros pk Hmissing. unfold AdminTaskDeleteView.delete.
      rewrite (dispatch_authenticated _ _ _ _ request_user) by done.
      unfold AdminTaskDeleteView.get_object.
      destruct (generics.get_object_or_404 _ _ _) as [exc|row] eqn:E.
      * by apply get_object_or_404_inl in E as [-> _].
      * apply get_object_or_404_inr in E as [Hrow Hpk]. by destruct (Hmissing row Hrow).
    + intros Hunique t Hin result. subst result.
      unfold AdminTaskDeleteView.delete.
      rewrite (dispatch_authenticated _ _ _ _ request_user) by done.
      unfold AdminTaskDeleteView.get_object.
      rewrite get_object_or_404_found by done. simpl. split_and!; try done.
      intros t'. rewrite list_elem_of_filter. split.
      * intros [Hne Hin']. split; [done|]. congruence.
      * intros [Hin' Hne]. split; [|done]. intros Heq. apply Hne.
        by eapply (NoDup_fmap_eq Task.id).
Qed.

Lemma admin_task_endpoints_witness :
  AdminTaskListView.get Sample.db (mkRequest (Some Sample.alice) ∅ ∅)
  = (mkResponse 403
       (ErrorBody "FORBIDDEN"
          (PermissionDenied "You must be an admin to perform this action.")),
     Sample.db)
  /\ AdminTaskListView.get Sample.db (mkRequest (Some Sample.root) ∅ ∅)
     = (mkResponse 200 (Plain (TaskListData (tasks Sample.db))), Sample.db).
Proof.
  split.
  - by apply (admin_task_endpoints Sample.db Sample.alice ∅ ∅).
  - by apply (admin_task_endpoints Sample.db Sample.root ∅ ∅).
Defined.


(** ** The user list and its task counts *)







(** ** Changing the password *)




(** ** More about registration *)







Lemma registration_accepted ext db request :
  status_code (UserRegistrationView.post ext db request).1 = 201 ->
  exists attrs,
    DRF.to_internal_value ext false (UserRegistrationSerializer.serializer ext db)
      (data request) = inr attrs
    /\ DRF.get "password" attrs = DRF.get "password_confirm" attrs
    /\ (UserRegistrationView.post ext db request).2
       = (UserRegistrationSerializer.create ext attrs db).2.
Proof.
  unfold UserRegistrationView.post, UserRegistrationSerializer.run_validation.
  destruct (DRF.to_internal_value _ _ _ _) as [errors|attrs] eqn:Hattrs; [done|].
  unfold UserRegistrationSerializer.validate. case_bool_decide as Hmatch; [done|].
  intros _. exists attrs. split_and!; [done| |].
  - by destruct (decide (DRF.get "password" attrs = DRF.get "password_confirm" attrs)).
  - destruct (UserRegistrationSerializer.create ext attrs db) as [created db'].
    by destruct (jwt_for_user ext (User.id created)).
Qed.

Lemma registration_failed_or_created ext db request :
  (exists errors,
     UserRegistrationView.post ext db request
     = (mkResponse 400 (Envelope false (Some "Registration failed") NoData errors), db))
  \/ status_code (UserRegistrationView.post ext db request).1 = 201.
Proof.
  unfold UserRegistrationView.post.
  destruct (UserRegistrationSerializer.run_validation _ _ _); [left; eauto|].
  destruct (UserRegistrationSerializer.create _ _ _).
  destruct (jwt_for_user _ _). by right.
Qed.







(** ** The profile endpoint *)

Lemma user_setattr_role u attr v :
  attr ≠ "role" -> User.role (accounts_serializers.setattr u attr v) = User.role u.
Proof.
  intros Hattr. destruct u. unfold accounts_serializers.setattr.
  repeat case_bool_decide; try done; by destruct v.
Qed.

Lemma user_setattr_is_active u attr v :
  attr ≠ "is_active" ->
  User.is_active (accounts_serializers.setattr u attr v) = User.is_active u.
Proof.
  intros Hattr. destruct u. unfold accounts_serializers.setattr.
  repeat case_bool_decide; try done; by destruct v.
Qed.

Lemma UserProfileSerializer_writable ext db instance :
  DRF._writable_fields (UserProfileSerializer.serializer ext db instance)
  = accounts_serializers.model_field ext db (Some instance)
      <$> ["username"; "first_name"; "last_name"].
Proof. reflexivity. Qed.

Lemma profile_update_cases partial ext db request :
  (exists exc, UserProfileView.update partial ext db request
               = (exceptions.custom_exception_handler exc, db))
  \/ (exists request_user validated_data,
        user request = Some request_user
        /\ DRF.to_internal_value ext partial
             (UserProfileSerializer.serializer ext db request_user) (data request)
           = inr validated_data
        /\ UserProfileView.update partial ext db request
           = (mkResponse HTTP_200_OK
                (Plain (UserData
                          (accounts_serializers.update request_user validated_data db).1)),
              (accounts_serializers.update request_user validated_data db).2)).
Proof.
  unfold UserProfileView.update.
  match goal with |- context [generics.dispatch ?p ?r ?d ?h] =>
    destruct (dispatch_cases p r d h)
      as [[exc ->]|(request_user & result & Huser & Hhandler & ->)] end;
    [left; eauto|].
  destruct (DRF.to_internal_value _ _ _ _) as [errors|validated_data] eqn:Hvalid;
    [done|].
  right. exists request_user, validated_data. split_and!; try done.
  destruct (accounts_serializers.update request_user validated_data db).
  by injection Hhandler.
Qed.

Lemma profile_update_ignores partial ext db request (name : string) (v : Value) :
  name ∉ ["username"; "first_name"; "last_name"] ->
  UserProfileView.update partial ext db
    (mkRequest (user request) (<[name := v]> (data request)) (query_params request))
  = UserProfileView.update partial ext db request.
Proof.
  intros Hname. unfold UserProfileView.update, generics.dispatch. simpl.
  destruct (user request) as [request_user|]; [|done]. simpl.
  rewrite !to_internal_value_unfold, UserProfileSerializer_writable.
  unfold errors_of, values_of, DRF.field_outcome. simpl.
  rewrite !lookup_insert_ne; [done|set_solver..].
Qed.

(** X12.  A user cannot change what the profile endpoint marks read-only:
    whatever the payload of a profile update, full or partial, the primary
    key, e-mail address, role, password hash and active flag of every user
    row stay as they were, all other users' rows and the tasks are
    untouched, and members of the payload other than [username],
    [first_name] and [last_name] (a [role], say) are not read at all. *)
Theorem profile_update_frame (partial : bool) (ext : External) (db : DB)
    (request_user : User.t) (payload : Payload) (query : gmap string string) :
  unique_user_ids db -> request_user ∈ users db ->
  let request := mkRequest (Some request_user) payload query in
  let result := UserProfileView.update partial ext db request in
  User.id <$> users result.2 = User.id <$> users db
  /\ User.email <$> users result.2 = User.email <$> users db
  /\ User.role <$> users result.2 = User.role <$> users db
  /\ User.password <$> users result.2 = User.password <$> users db
  /\ User.is_active <$> users result.2 = User.is_active <$> users db
  /\ tasks result.2 = tasks db
  /\ (forall u, u ∈ users db -> User.id u ≠ User.id request_user -> u ∈ users result.2)
  /\ (forall (name : string) (v : Value),
        name ∉ ["username"; "first_name"; "last_name"] ->
        UserProfileView.update partial ext db
          (mkRequest (Some request_user) (<[name := v]> payload) query)
        = result).
Proof.
  intros Hunique Hin request result.
  assert (forall (name : string) (v : Value),
        name ∉ ["username"; "first_name"; "last_name"] ->
        UserProfileView.update partial ext db
          (mkRequest (Some request_user) (<[name := v]> payload) query)
        = result) as Hignore.
  { intros name v Hname. by apply (profile_update_ignores partial ext db request). }
  subst result. revert Hignore.
  destruct (profile_update_cases partial ext db request)
    as [[exc Hexc]|(u & validated_data & Huser & Hvalid & Hok)].
  { rewrite Hexc. intros Hignore. by split_and!. }
  injection Huser as <-. rewrite Hok. intros Hignore.
  apply to_internal_value_keys in Hvalid.
  rewrite UserProfileSerializer_writable in Hvalid. simpl in Hvalid.
  unfold accounts_serializers.update in *. simpl in *.
  set (instance' :=
         foldl (fun u kv => accounts_serializers.setattr u kv.1 kv.2) request_user
           validated_data) in *.
  assert (User.id instance' = User.id request_user) as Hid.
  { apply (user_foldl_setattr User.id "id"); [apply user_setattr_id|set_solver]. }
  assert (User.email instance' = User.email request_user) as Hemail.
  { apply (user_foldl_setattr User.email "email"); [apply user_setattr_email|set_solver]. }
  assert (User.role instance' = User.role request_user) as Hrole.
  { apply (user_foldl_setattr User.role "role"); [apply user_setattr_role|set_solver]. }
  assert (User.password instance' = User.password request_user) as Hpassword.
  { apply (user_foldl_setattr User.password "password");
      [apply user_setattr_password|set_solver]. }
  assert (User.is_active instance' = User.is_active request_user) as Hactive.
  { apply (user_foldl_setattr User.is_active "is_active");
      [apply user_setattr_is_active|set_solver]. }
  split_and!; try done.
  - by apply (user_save_proj User.id request_user).
  - by apply (user_save_proj User.email request_user).
  - by apply (user_save_proj User.role request_user).
  - by apply (user_save_proj User.password request_user).
  - by apply (user_save_proj User.is_active request_user).
  - intros u Hu Hne. apply user_save_others; [done|]. congruence.
Qed.

Lemma profile_update_frame_witness :
  User.role
    <$> users (UserProfileView.patch Sample.ext Sample.db
                 (Sample.request (Some Sample.alice)
                    [("role", Str "admin"); ("first_name", Str "Alice")] [])).2
  = ["user"; "user"; "admin"].
Proof.
  apply (profile_update_frame true Sample.ext Sample.db Sample.alice
           (list_to_map [("role", Str "admin"); ("first_name", Str "Alice")]) ∅).
  - unfold unique_user_ids. simpl. apply NoDup_ListNoDup. repeat constructor; set_solver.
  - unfold Sample.db. simpl. set_solver.
Defined.

(** ** Statistics against the list *)

(** X13.  The statistics agree with the task list of the same caller: the
    total is the length of the unfiltered list and each named count is the
    length of the list filtered by that status. *)
Theorem stats_agree_with_list (db : DB) (request_user : User.t) (payload : Payload)
    (query : gmap string string) :
  exists stats,
    TaskStatsView.get db (mkRequest (Some request_user) payload query)
    = (mkResponse 200 (Envelope true None (StatsData stats) []), db)
    /\ total stats
       = Z.of_nat (length (TaskListCreateView.get_queryset db request_user ∅))
    /\ pending stats
       = Z.of_nat (length (TaskListCreateView.get_queryset db request_user
                             {[ "status" := "pending" ]}))
    /\ in_progress stats
       = Z.of_nat (length (TaskListCreateView.get_queryset db request_user
                             {[ "status" := "in_progress" ]}))
    /\ completed stats
       = Z.of_nat (length (TaskListCreateView.get_queryset db request_user
                             {[ "status" := "completed" ]}))
    /\ cancelled stats
       = Z.of_nat (length (TaskListCreateView.get_queryset db request_user
                             {[ "status" := "cancelled" ]})).
Proof.
  eexists. split.
  - unfold TaskStatsView.get.
    by rewrite (dispatch_authenticated _ _ _ _ request_user).
  - by split_and!.
Qed.

(** ** Roles and owners stay well formed *)

Lemma user_foldl_role (d : DRF.ValidatedData) u :
  Forall (fun kv => kv.1 = "role" -> exists r, kv.2 = Str r /\ r ∈ ROLES) d ->
  User.role u ∈ ROLES ->
  User.role (foldl (fun u kv => accounts_serializers.setattr u kv.1 kv.2) u d) ∈ ROLES.
Proof.
  revert u. induction d as [|[k v] d IH]; intros u Hitems Hrole; simpl; [done|].
  apply Forall_cons in Hitems as [Hitem Hitems]. apply IH; [done|].
  destruct (decide (k = "role")) as [->|Hk].
  - destruct (Hitem eq_refl) as (r & Hv & Hr). simpl in Hv. subst v. by destruct u.
  - by rewrite user_setattr_role.
Qed.

Lemma admin_update_items ext partial db instance data validated_data :
  DRF.to_internal_value ext partial
    (AdminUserUpdateSerializer.serializer ext db instance) data = inr validated_data ->
  Forall (fun kv => kv.1 = "role" -> exists r, kv.2 = Str r /\ r ∈ ROLES) validated_data.
Proof.
  intros Hvalid. apply Forall_forall. intros [name v] Hin. simpl. intros ->.
  destruct (to_internal_value_items _ _ _ _ _ _ _ Hvalid Hin) as (f & Hf & Hname & Hout).
  rewrite AdminUserUpdateSerializer_writable in Hf. simpl in Hf.
  rewrite !elem_of_cons, elem_of_nil in Hf.
  destruct Hf as [->|[->|[->|[->|[]]]]]; try done.
  revert Hout. unfold DRF.field_outcome. simpl.
  destruct (DRF.run_validation _ _ _ _) as [|v0|] eqn:Hrun; try done.
  eapply choice_outcome in Hrun as (x & -> & Hx); [|done..].
  simpl. intros [= <-]. eauto.
Qed.

(** X14.  No endpoint stores a role outside [user] and [admin]: if every
    stored user has one of the two roles, and so has the caller, the same
    holds after a registration, an admin update of any user (full or
    partial), a profile update, a password change and an admin delete,
    whatever the request carries. *)
Theorem roles_stay_valid (ext : External) (check_password : string -> string -> bool)
    (db : DB) (request_user : User.t) (payload : Payload)
    (query : gmap string string) :
  Forall (fun u => User.role u ∈ ROLES) (users db) ->
  User.role request_user ∈ ROLES ->
  let request := mkRequest (Some request_user) payload query in
  let valid db' := Forall (fun u => User.role u ∈ ROLES) (users db') in
  valid (UserRegistrationView.post ext db request).2
  /\ (forall partial pk, valid (AdminUserDetailView.update partial ext db request pk).2)
  /\ (forall partial, valid (UserProfileView.update partial ext db request).2)
  /\ valid (ChangePasswordView.put ext check_password db request).2
  /\ (forall pk, valid (AdminUserDetailView.delete db request pk).2).
Proof.
  intros Hdb Hcaller request valid. subst valid. split_and!.
  - destruct (registration_failed_or_created ext db request) as [[errors ->]|Hok];
      [done|].
    apply registration_accepted in Hok as (attrs & _ & _ & ->).
    unfold UserRegistrationSerializer.create, create_user. simpl.
    apply Forall_app. split; [done|]. apply Forall_singleton. simpl.
    unfold ROLES. simpl. set_solver.
  - intros partial pk.
    destruct (admin_update_cases partial ext db request pk)
      as [[exc ->]|(u & instance & validated_data & _ & Hget & Hvalid & ->)]; [done|].
    apply admin_get_object_inr in Hget as (Hin & _).
    apply admin_update_items in Hvalid.
    unfold accounts_serializers.update, accounts_serializers.save. simpl.
    apply Forall_fmap, Forall_forall. intros row Hrow. simpl.
    rewrite Forall_forall in Hdb.
    case_bool_decide; [|by apply Hdb]. apply user_foldl_role; [done|by apply Hdb].
  - intros partial.
    destruct (profile_update_cases partial ext db request)
      as [[exc ->]|(u & validated_data & Huser & Hvalid & ->)]; [done|].
    injection Huser as <-.
    apply to_internal_value_keys in Hvalid.
    rewrite UserProfileSerializer_writable in Hvalid. simpl in Hvalid.
    unfold accounts_serializers.update, accounts_serializers.save. simpl.
    apply Forall_fmap, Forall_forall. intros row Hrow. simpl.
    rewrite Forall_forall in Hdb.
    case_bool_decide; [|by apply Hdb].
    rewrite (user_foldl_setattr User.role "role"); [done|apply user_setattr_role|].
    set_solver.
  - unfold ChangePasswordView.put.
    rewrite (dispatch_authenticated _ _ _ _ request_user) by done.
    destruct (ChangePasswordSerializer.run_validation _ _ _ _); [done|].
    unfold accounts_serializers.save. simpl.
    apply Forall_fmap, Forall_forall. intros row Hrow. simpl.
    rewrite Forall_forall in Hdb. case_bool_decide; [done|by apply Hdb].
  - intros pk. unfold AdminUserDetailView.delete.
    match goal with |- context [generics.dispatch ?p ?r ?d ?h] =>
      destruct (dispatch_cases p r d h)
        as [[exc ->]|(u & result & _ & Hhandler & ->)] end; [done|].
    destruct (AdminUserDetailView.get_object db u pk) as [exc|target]; [done|].
    destruct (User.eqb target u); [by injection Hhandler as <-|].
    injection Hhandler as <-. simpl.
    rewrite Forall_forall in *. intros row [_ Hrow]%list_elem_of_filter. by apply Hdb.
Qed.

Lemma roles_stay_valid_witness :
  Forall (fun u => User.role u ∈ ROLES)
    (users (AdminUserDetailView.patch Sample.ext Sample.db
              (Sample.request (Some Sample.root) [("role", Str "superuser")] []) 2).2).
Proof.
  apply (roles_stay_valid Sample.ext (fun _ _ => true) Sample.db Sample.root
           (list_to_map [("role", Str "superuser")]) ∅);
    unfold ROLES; simpl; [repeat constructor; set_solver|set_solver].
Defined.

(** ** The message of a rejected update *)

Lemma field_to_internal_detail ext f v detail :
  DRF.field_to_internal ext f v = DRF.Fail detail -> detail ≠ [].
Proof.
  unfold DRF.field_to_internal.
  repeat (case_match; try done); intros [= <-]; done.
Qed.

Lemma run_validation_detail ext partial f data detail :
  DRF.run_validation ext partial f data = DRF.Fail detail -> detail ≠ [].
Proof.
  unfold DRF.run_validation.
  destruct data as [v|].
  - destruct v; try apply field_to_internal_detail.
    destruct (DRF.allow_null f); [done|]. by intros [= <-].
  - destruct partial; [done|]. destruct (DRF.required f); [|done]. by intros [= <-].
Qed.

Section error_messages.

Import error_message.

Context (ext : External) (partial : bool) (s : DRF.Serializer) (data : Payload).

Hypothesis methods_detail : forall name m x detail,
  DRF.validate_method s name = Some m -> m x = DRF.Invalid detail -> detail ≠ [].

Lemma field_outcome_detail f detail :
  DRF.field_outcome ext partial s data f = DRF.Fail detail -> detail ≠ [].
Proof.
  unfold DRF.field_outcome.
  destruct (DRF.run_validation ext partial f (data !! DRF.field_name f)) as [|v|d]
    eqn:Hrun.
  - done.
  - unfold DRF.apply_validate_method.
    destruct (DRF.validate_method s (DRF.field_name f)) as [m|] eqn:Hm; [|done].
    destruct v as [x| | |]; try done.
    destruct (m x) as [|d] eqn:Hx; [done|].
    intros [= <-]. by eapply methods_detail.
  - intros [= <-]. by eapply run_validation_detail.
Qed.

Lemma lookup_key_absent field (d : list (string * ErrorValue)) :
  field ∉ d.*1 -> lookup_key field d = None.
Proof.
  induction d as [|[k v] d IH]; simpl; [done|].
  rewrite not_elem_of_cons. intros [Hne Hd].
  rewrite bool_decide_eq_false_2 by done. by apply IH.
Qed.

Lemma common_field_absent fields (d : list (string * ErrorValue)) :
  (forall field, field ∈ fields -> field ∉ d.*1) -> common_field fields d = None.
Proof.
  induction fields as [|field rest IH]; simpl; [done|]. intros Habsent.
  rewrite lookup_key_absent by (apply Habsent; left).
  apply IH. intros field' Hin. apply Habsent. by right.
Qed.

Lemma of_errors_keys (errors : DRF.Errors) :
  match of_errors errors with DictData d => d.*1 = errors.*1 | ListData _ => False end.
Proof. unfold of_errors. by rewrite <- !list_fmap_compose. Qed.

Lemma rejected_message errors :
  (forall field, field ∈ ["detail"; "message"; "error"; "non_field_errors"] ->
                 field ∉ DRF.field_name <$> DRF._writable_fields s) ->
  DRF.to_internal_value ext partial s data = inl errors ->
  exists name first rest tail,
    errors = (name, first :: rest) :: tail
    /\ name ∈ DRF.field_name <$> DRF._writable_fields s
    /\ get_error_message (of_errors errors) = Msg (name +:+ ": " +:+ first).
Proof.
  intros Hreserved. rewrite to_internal_value_unfold.
  destruct (errors_of ext partial s data (DRF._writable_fields s))
    as [|[name detail] tail] eqn:Herrors; [done|]. intros [= <-].
  assert (Hkeys : forall k l, (k, l) ∈ (name, detail) :: tail ->
            k ∈ DRF.field_name <$> DRF._writable_fields s /\ l ≠ []).
  { intros k l Hin. rewrite <- Herrors in Hin.
    apply errors_of_elem in Hin as (f & Hf & <- & Hout).
    split; [by apply list_elem_of_fmap_2|by eapply field_outcome_detail]. }
  destruct (Hkeys name detail) as [Hname Hdetail]; [left|].
  destruct detail as [|first rest]; [done|].
  exists name, first, rest, tail. split_and!; [done..|].
  unfold get_error_message, of_errors.
  rewrite common_field_absent; [done|].
  intros field Hfield. rewrite <- list_fmap_compose.
  intros (kv & -> & Hkv)%list_elem_of_fmap. simpl in Hfield.
  destruct kv as [k l]. apply Hkeys in Hkv as [Hk _]. by apply (Hreserved k).
Qed.

End error_messages.

Lemma TaskSerializer_methods_detail db instance name m x detail :
  DRF.validate_method (TaskSerializer.serializer db instance) name = Some m ->
  m x = DRF.Invalid detail -> detail ≠ [].
Proof.
  simpl. repeat case_bool_decide; intros [= <-]; try done.
  - unfold validate_title. case_match; [|done]. by intros [= <-].
  - unfold TaskSerializer.validate_status. destruct instance; [|done].
    case_match; [|done]. by intros [= <-].
Qed.

(** X15.  When the serializer rejects the body of a task update (full or
    partial), the answer is 400 with code [BAD_REQUEST] and nothing is
    stored; the message that [get_error_message] extracts from the errors
    is the name of the first failing field, a colon and the first error of
    that field, never the text of the whole dictionary. *)
Theorem rejected_update_message (partial : bool) (ext : External) (db : DB)
    (request_user : User.t) (payload : Payload) (query : gmap string string)
    (pk : Z) (instance : Task.t) (errors : DRF.Errors) :
  TaskDetailView.get_object db request_user pk = inr instance ->
  DRF.to_internal_value ext partial (TaskSerializer.serializer db (Some instance)) payload
  = inl errors ->
  TaskDetailView.update partial ext db (mkRequest (Some request_user) payload query) pk
  = (mkResponse 400 (ErrorBody "BAD_REQUEST" (ValidationError errors)), db)
  /\ exists name first rest tail,
       errors = (name, first :: rest) :: tail
       /\ name ∈ ["title"; "description"; "status"; "priority"; "due_date"]
       /\ error_message.get_error_message (error_message.of_errors errors)
          = error_message.Msg (name +:+ ": " +:+ first).
Proof.
  intros Hget Hvalid. split.
  - unfold TaskDetailView.update.
    rewrite (dispatch_authenticated _ _ _ _ request_user) by done.
    simpl. by rewrite Hget, Hvalid.
  - eapply rejected_message in Hvalid as (name & first & rest & tail & -> & Hname & Hmsg).
    + exists name, first, rest, tail. split_and!; [done| |done].
      by rewrite TaskSerializer_writable in Hname.
    + apply TaskSerializer_methods_detail.
    + rewrite TaskSerializer_writable. set_solver.
Qed.

Lemma rejected_update_message_witness :
  TaskDetailView.patch Sample.ext Sample.db
    (Sample.request (Some Sample.alice) [("status", Str "in_progress"); ("title", Str "x")] [])
    1
  = (mkResponse 400
       (ErrorBody "BAD_REQUEST"
          (ValidationError
             [("title", ["Title must be at least 3 characters long."]);
              ("status", ["Cannot transition from 'completed' to 'in_progress'."])])),
     Sample.db).
Proof.
  apply (rejected_update_message true Sample.ext Sample.db Sample.alice
           (list_to_map [("status", Str "in_progress"); ("title", Str "x")]) ∅ 1
           Sample.report); reflexivity.
Defined.

(** ** Every task keeps a stored owner *)

Lemma user_save_ids instance db :
  User.id <$> users (accounts_serializers.save instance db) = User.id <$> users db.
Proof.
  unfold accounts_serializers.save. simpl. rewrite <- list_fmap_compose.
  apply Forall_fmap_ext_1, Forall_forall. intros u _. simpl.
  by case_bool_decide.
Qed.

Lemma owners_exist_same db db' :
  tasks db' = tasks db -> User.id <$> users db' = User.id <$> users db ->
  owners_exist db -> owners_exist db'.
Proof. unfold owners_exist. by intros -> ->. Qed.

Lemma owners_exist_fewer (P : Task.t -> Prop) `{!forall t, Decision (P t)} db :
  owners_exist db -> owners_exist (set_tasks (filter P (tasks db)) db).
Proof.
  unfold owners_exist. simpl. rewrite !Forall_forall.
  intros Hdb t [_ Ht]%list_elem_of_filter. by apply Hdb.
Qed.

(** X16.  No endpoint leaves a task whose owner is not a stored user: if
    every stored task is owned by a stored user and the caller is a stored
    user, the same holds after creating, updating or deleting a task,
    after an admin deletes any task or any user (whose tasks go with it),
    and after a registration, an admin update of a user, a profile update
    or a password change, whatever the request carries. *)
Theorem owners_stay_stored (ext : External) (check_password : string -> string -> bool)
    (db : DB) (request_user : User.t) (payload : Payload)
    (query : gmap string string) :
  owners_exist db ->
  User.id request_user ∈ User.id <$> users db ->
  let request := mkRequest (Some request_user) payload query in
  owners_exist (TaskListCreateView.post ext db request).2
  /\ (forall partial pk, owners_exist (TaskDetailView.update partial ext db request pk).2)
  /\ (forall pk, owners_exist (TaskDetailView.delete db request pk).2)
  /\ (forall pk, owners_exist (AdminTaskDeleteView.delete db request pk).2)
  /\ (forall pk, owners_exist (AdminUserDetailView.delete db request pk).2)
  /\ owners_exist (UserRegistrationView.post ext db request).2
  /\ (forall partial pk,
        owners_exist (AdminUserDetailView.update partial ext db request pk).2)
  /\ (forall partial, owners_exist (UserProfileView.update partial ext db request).2)
  /\ owners_exist (ChangePasswordView.put ext check_password db request).2.
Proof.
  intros Hdb Hcaller request. split_and!.
  - destruct (task_post_cases ext db request)
      as [->|(u & validated_data & task & db' & Hvalid & Huser & Hcreate & ->)]; [done|].
    injection Huser as <-.
    apply to_internal_value_keys in Hvalid.
    rewrite TaskCreateSerializer_writable in Hvalid.
    apply task_create_row in Hcreate as [Htask ->]; [|set_solver].
    unfold owners_exist. simpl. apply Forall_app. split; [done|].
    apply Forall_singleton. rewrite Htask.
    by destruct (foldl _ _ validated_data).
  - intros partial pk.
    destruct (task_update_cases partial ext db request pk)
      as [[exc ->]|(u & instance & validated_data & _ & Hget & Hvalid & ->)]; [done|].
    apply task_get_object_inr in Hget as Hin.
    apply task_update_keys in Hvalid.
    destruct (task_update_row instance validated_data db Hvalid) as [Howner _].
    unfold tasks_serializers.update in *. simpl in *.
    unfold owners_exist, tasks_serializers.save. simpl.
    apply Forall_fmap, Forall_forall. intros t Ht. simpl.
    unfold owners_exist in Hdb. rewrite Forall_forall in Hdb.
    case_bool_decide; [|by apply Hdb].
    rewrite Howner. apply Hdb. apply Hin.
  - intros pk. unfold TaskDetailView.delete.
    match goal with |- context [generics.dispatch ?p ?r ?d ?h] =>
      destruct (dispatch_cases p r d h)
        as [[exc ->]|(u & result & _ & Hhandler & ->)] end; [done|].
    destruct (TaskDetailView.get_object db u pk) as [exc|instance]; [done|].
    injection Hhandler as <-. by apply owners_exist_fewer.
  - intros pk. unfold AdminTaskDeleteView.delete.
    match goal with |- context [generics.dispatch ?p ?r ?d ?h] =>
      destruct (dispatch_cases p r d h)
        as [[exc ->]|(u & result & _ & Hhandler & ->)] end; [done|].
    destruct (AdminTaskDeleteView.get_object db u pk) as [exc|instance]; [done|].
    injection Hhandler as <-. by apply owners_exist_fewer.
  - intros pk. unfold AdminUserDetailView.delete.
    match goal with |- context [generics.dispatch ?p ?r ?d ?h] =>
      destruct (dispatch_cases p r d h)
        as [[exc ->]|(u & result & _ & Hhandler & ->)] end; [done|].
    destruct (AdminUserDetailView.get_object db u pk) as [exc|target]; [done|].
    destruct (User.eqb target u); [by injection Hhandler as <-|].
    injection Hhandler as <-.
    unfold owners_exist, AdminUserDetailView.perform_destroy in *. simpl.
    rewrite Forall_forall in *. intros t [Hne Ht]%list_elem_of_filter.
    apply Hdb in Ht as (row & Hid & Hrow)%list_elem_of_fmap.
    apply list_elem_of_fmap. exists row. split; [done|].
    apply list_elem_of_filter. split; [congruence|done].
  - destruct (registration_failed_or_created ext db request) as [[errors ->]|Hok];
      [done|].
    apply registration_accepted in Hok as (attrs & _ & _ & ->).
    unfold UserRegistrationSerializer.create, create_user, owners_exist in *. simpl.
    eapply Forall_impl; [exact Hdb|]. intros t Ht. simpl in *.
    rewrite fmap_app. apply elem_of_app. by left.
  - intros partial pk.
    destruct (admin_update_cases partial ext db request pk)
      as [[exc ->]|(u & instance & validated_data & _ & _ & _ & ->)]; [done|].
    eapply owners_exist_same; [|apply user_save_ids|done]. done.
  - intros partial.
    destruct (profile_update_cases partial ext db request)
      as [[exc ->]|(u & validated_data & _ & _ & ->)]; [done|].
    eapply owners_exist_same; [|apply user_save_ids|done]. done.
  - unfold ChangePasswordView.put.
    rewrite (dispatch_authenticated _ _ _ _ request_user) by done.
    destruct (ChangePasswordSerializer.run_validation _ _ _ _); [done|].
    eapply owners_exist_same; [|apply user_save_ids|done]. done.
Qed.

Lemma owners_stay_stored_witness :
  owners_exist (AdminUserDetailView.delete Sample.db
                  (Sample.request (Some Sample.root) [] []) 2).2
  /\ tasks (AdminUserDetailView.delete Sample.db
              (Sample.request (Some Sample.root) [] []) 2).2 = [Sample.report].
Proof.
  split; [|reflexivity].
  apply (owners_stay_stored Sample.ext (fun _ _ => true) Sample.db Sample.root ∅ ∅).
  - unfold owners_exist. simpl. repeat constructor; set_solver.
  - simpl. set_solver.
Defined.

(** ** Primary keys stay unique *)

Lemma task_save_ids instance db :
  Task.id <$> tasks (tasks_serializers.save instance db) = Task.id <$> tasks db.
Proof.
  unfold tasks_serializers.save. simpl. rewrite <- list_fmap_compose.
  apply Forall_fmap_ext_1, Forall_forall. intros t _. simpl.
  by case_bool_decide.
Qed.

Lemma keys_sound_same db db' :
  Task.id <$> tasks db' = Task.id <$> tasks db ->
  User.id <$> users db' = User.id <$> users db ->
  task_seq db' = task_seq db -> user_seq db' = user_seq db ->
  keys_sound db -> keys_sound db'.
Proof.
  unfold keys_sound, unique_task_ids, unique_user_ids.
  by intros -> -> -> ->.
Qed.

Lemma keys_fresh (l : list Z) n :
  NoDup l -> Forall (fun pk => pk <= n) l ->
  NoDup (l ++ [n + 1]) /\ Forall (fun pk => pk <= n + 1) (l ++ [n + 1]).
Proof.
  intros Hnd Hle. split.
  - apply NoDup_app. split_and!; [done| |apply NoDup_singleton].
    intros pk Hpk ->%list_elem_of_singleton.
    rewrite Forall_forall in Hle. apply Hle in Hpk. lia.
  - apply Forall_app. split; [|apply Forall_singleton; lia].
    eapply Forall_impl; [exact Hle|]. simpl. intros. lia.
Qed.

Lemma keys_fewer {A} (f : A -> Z) (P : A -> Prop) `{!forall x, Decision (P x)}
    (l : list A) n :
  NoDup (f <$> l) -> Forall (fun pk => pk <= n) (f <$> l) ->
  NoDup (f <$> filter P l) /\ Forall (fun pk => pk <= n) (f <$> filter P l).
Proof.
  intros Hnd Hle. split.
  - eapply sublist_NoDup; [exact Hnd|]. apply fmap_sublist, sublist_filter.
  - rewrite Forall_fmap in *. rewrite Forall_forall in *.
    intros x [_ Hx]%list_elem_of_filter. by apply Hle.
Qed.

(** X17.  The endpoints keep the primary keys sound: if no task key and no
    user key is stored twice and the two key counters are not below any
    stored key, the same holds after creating, updating or deleting a
    task, after a registration, after an admin updates or deletes a user,
    and after a profile update or a password change. *)
Theorem keys_stay_unique (ext : External) (check_password : string -> string -> bool)
    (db : DB) (request_user : User.t) (payload : Payload)
    (query : gmap string string) :
  keys_sound db ->
  let request := mkRequest (Some request_user) payload query in
  keys_sound (TaskListCreateView.post ext db request).2
  /\ (forall partial pk, keys_sound (TaskDetailView.update partial ext db request pk).2)
  /\ (forall pk, keys_sound (TaskDetailView.delete db request pk).2)
  /\ (forall pk, keys_sound (AdminTaskDeleteView.delete db request pk).2)
  /\ (forall pk, keys_sound (AdminUserDetailView.delete db request pk).2)
  /\ keys_sound (UserRegistrationView.post ext db request).2
  /\ (forall partial pk,
        keys_sound (AdminUserDetailView.update partial ext db request pk).2)
  /\ (forall partial, keys_sound (UserProfileView.update partial ext db request).2)
  /\ keys_sound (ChangePasswordView.put ext check_password db request).2.
Proof.
  intros Hdb request. pose proof Hdb as (Htasks & Husers & Htseq & Huseq).
  unfold unique_task_ids, unique_user_ids in *. split_and!.
  - destruct (task_post_cases ext db request)
      as [->|(u & validated_data & task & db' & Hvalid & Huser & Hcreate & ->)]; [done|].
    apply to_internal_value_keys in Hvalid.
    rewrite TaskCreateSerializer_writable in Hvalid.
    apply task_create_row in Hcreate as [Htask ->]; [|set_solver].
    assert (Hid : Task.id task = task_seq db + 1).
    { rewrite Htask, task_setattr_id by done.
      rewrite (task_foldl_setattr Task.id "id"); [done|apply task_setattr_id|].
      set_solver. }
    destruct (keys_fresh _ _ Htasks Htseq) as [Hnd Hle].
    unfold keys_sound, unique_task_ids, unique_user_ids. simpl.
    rewrite fmap_app. simpl. rewrite Hid. by split_and!.
  - intros partial pk.
    destruct (task_update_cases partial ext db request pk)
      as [[exc ->]|(u & instance & validated_data & _ & _ & _ & ->)]; [done|].
    eapply keys_sound_same; [apply task_save_ids|done..].
  - intros pk. unfold TaskDetailView.delete.
    match goal with |- context [generics.dispatch ?p ?r ?d ?h] =>
      destruct (dispatch_cases p r d h)
        as [[exc ->]|(u & result & _ & Hhandler & ->)] end; [done|].
    destruct (TaskDetailView.get_object db u pk) as [exc|instance]; [done|].
    injection Hhandler as <-.
    destruct (keys_fewer Task.id (fun t => Task.id t ≠ Task.id instance) (tasks db)
                (task_seq db) Htasks Htseq) as [Hnd Hle].
    unfold keys_sound, unique_task_ids, unique_user_ids. simpl. by split_and!.
  - intros pk. unfold AdminTaskDeleteView.delete.
    match goal with |- context [generics.dispatch ?p ?r ?d ?h] =>
      destruct (dispatch_cases p r d h)
        as [[exc ->]|(u & result & _ & Hhandler & ->)] end; [done|].
    destruct (AdminTaskDeleteView.get_object db u pk) as [exc|instance]; [done|].
    injection Hhandler as <-.
    destruct (keys_fewer Task.id (fun t => Task.id t ≠ Task.id instance) (tasks db)
                (task_seq db) Htasks Htseq) as [Hnd Hle].
    unfold keys_sound, unique_task_ids, unique_user_ids. simpl. by split_and!.
  - intros pk. unfold AdminUserDetailView.delete.
    match goal with |- context [generics.dispatch ?p ?r ?d ?h] =>
      destruct (dispatch_cases p r d h)
        as [[exc ->]|(u & result & _ & Hhandler & ->)] end; [done|].
    destruct (AdminUserDetailView.get_object db u pk) as [exc|target]; [done|].
    destruct (User.eqb target u); [by injection Hhandler as <-|].
    injection Hhandler as <-.
    destruct (keys_fewer Task.id (fun t => Task.owner t ≠ User.id target) (tasks db)
                (task_seq db) Htasks Htseq) as [Hnd Hle].
    destruct (keys_fewer User.id (fun row => User.id row ≠ User.id target) (users db)
                (user_seq db) Husers Huseq) as [Hnd' Hle'].
    unfold keys_sound, unique_task_ids, unique_user_ids,
      AdminUserDetailView.perform_destroy. simpl. by split_and!.
  - destruct (registration_failed_or_created ext db request) as [[errors ->]|Hok];
      [done|].
    apply registration_accepted in Hok as (attrs & _ & _ & ->).
    destruct (keys_fresh _ _ Husers Huseq) as [Hnd Hle].
    unfold UserRegistrationSerializer.create, create_user, keys_sound,
      unique_task_ids, unique_user_ids. simpl.
    rewrite fmap_app. simpl. by split_and!.
  - intros partial pk.
    destruct (admin_update_cases partial ext db request pk)
      as [[exc ->]|(u & instance & validated_data & _ & _ & _ & ->)]; [done|].
    eapply keys_sound_same; [|apply user_save_ids|..]; done.
  - intros partial.
    destruct (profile_update_cases partial ext db request)
      as [[exc ->]|(u & validated_data & _ & _ & ->)]; [done|].
    eapply keys_sound_same; [|apply user_save_ids|..]; done.
  - unfold ChangePasswordView.put.
    rewrite (dispatch_authenticated _ _ _ _ request_user) by done.
    destruct (ChangePasswordSerializer.run_validation _ _ _ _); [done|].
    eapply keys_sound_same; [|apply user_save_ids|..]; done.
Qed.

Lemma keys_stay_unique_witness :
  keys_sound (TaskListCreateView.post Sample.ext Sample.db
                (Sample.request (Some Sample.alice) [("title", Str "Write tests")] [])).2
  /\ Task.id <$> tasks (TaskListCreateView.post Sample.ext Sample.db
                (Sample.request (Some Sample.alice) [("title", Str "Write tests")] [])).2
     = [1; 2; 3].
Proof.
  split; [|reflexivity].
  apply (keys_stay_unique Sample.ext (fun _ _ => true) Sample.db Sample.alice
           (list_to_map [("title", Str "Write tests")]) ∅).
  unfold keys_sound, unique_task_ids, unique_user_ids. simpl.
  split_and!; [apply NoDup_ListNoDup; repeat constructor; set_solver..
              |repeat constructor; lia|repeat constructor; lia].
Defined.
